(** * STAC catalog builder and validator: a shallow embedding

    This development models the two scripts of the repository,

    - [scripts/python/make_catalog.py]: the layout strategy
      [ItemInSubdirLayout] and the builder [create_and_save_catalog];
    - [scripts/python/validate_catalog.py]: the command line validator
      [main];

    and states their specified behaviour as theorems.

    The scripts are glue over the Python standard library ([posixpath],
    [urllib.parse], [argparse], [pathlib]) and over [pystac].  The parts
    of those libraries that decide a property are modelled here from
    their documented behaviour; the parts that are black boxes for the
    scripts (schema checking, the self-contained save, href
    normalisation, [pathlib]'s [/]) are fields of the class [Library],
    so every theorem holds for each behaviour of them. *)

From Stdlib Require Import Ascii ZArith Lia.
From stdpp Require Import base gmap strings list sorting pretty.

Local Open Scope Z_scope.

(** ** Python strings *)

Module Str.

(** [s.startswith(c)] for a one-character [c]. *)
Definition startswith_char (c : ascii) (s : string) : bool :=
  match s with
  | String a _ => bool_decide (a = c)
  | EmptyString => false
  end.

(** [s.endswith(c)] for a one-character [c]. *)
Fixpoint endswith_char (c : ascii) (s : string) : bool :=
  match s with
  | EmptyString => false
  | String a EmptyString => bool_decide (a = c)
  | String _ s' => endswith_char c s'
  end.

(** [s.startswith(p)]. *)
Fixpoint startswith (p s : string) : bool :=
  match p, s with
  | EmptyString, _ => true
  | String a p', String b s' => bool_decide (a = b) && startswith p' s'
  | String _ _, EmptyString => false
  end.

(** [p in s] for strings. *)
Fixpoint contains (p s : string) : bool :=
  startswith p s ||
  match s with
  | EmptyString => false
  | String _ s' => contains p s'
  end.

Definition is_ascii_upper (a : ascii) : bool :=
  let n := N_of_ascii a in ((65 <=? n) && (n <=? 90))%N.
Definition is_ascii_lower (a : ascii) : bool :=
  let n := N_of_ascii a in ((97 <=? n) && (n <=? 122))%N.
Definition is_ascii_digit (a : ascii) : bool :=
  let n := N_of_ascii a in ((48 <=? n) && (n <=? 57))%N.
Definition is_ascii_alpha (a : ascii) : bool :=
  is_ascii_upper a || is_ascii_lower a.

Definition lower_char (a : ascii) : ascii :=
  if is_ascii_upper a then ascii_of_N (N_of_ascii a + 32) else a.

(** [s.lower()], on the ASCII letters (the only ones a scheme has). *)
Fixpoint lower (s : string) : string :=
  match s with
  | EmptyString => EmptyString
  | String a s' => String (lower_char a) (lower s')
  end.

Fixpoint forallb (f : ascii -> bool) (s : string) : bool :=
  match s with
  | EmptyString => true
  | String a s' => f a && forallb f s'
  end.

(** [s.partition(c)]: the text before the first [c] and the text after
    it, [None] when [c] does not occur ([s.find(c) == -1]). *)
Fixpoint split_at (c : ascii) (s : string) : option (string * string) :=
  match s with
  | EmptyString => None
  | String a s' =>
      if bool_decide (a = c) then Some (EmptyString, s')
      else match split_at c s' with
           | Some (pre, post) => Some (String a pre, post)
           | None => None
           end
  end.

(** [s.lstrip(chars)], for the characters that [f] selects. *)
Fixpoint lstrip (f : ascii -> bool) (s : string) : string :=
  match s with
  | EmptyString => EmptyString
  | String a s' => if f a then lstrip f s' else s
  end.

(** [s.replace(c, "")] for every character [c] that [f] selects. *)
Fixpoint remove (f : ascii -> bool) (s : string) : string :=
  match s with
  | EmptyString => EmptyString
  | String a s' => if f a then remove f s' else String a (remove f s')
  end.

End Str.

(** ** [posixpath.join] *)

Module posixpath.

Definition sep : ascii := "/"%char.

(** One round of the loop of [posixpath.join]:
<<
    if b.startswith(sep):            path = b
    elif not path or path.endswith(sep): path += b
    else:                            path += sep + b
>> *)
Definition join_step (path b : string) : string :=
  if Str.startswith_char sep b then b
  else if bool_decide (path = "") || Str.endswith_char sep path
       then path +:+ b
       else path +:+ "/" +:+ b.

(** [posixpath.join(a, *p)].  Python rejects a call without arguments;
    the scripts never make one, and the model returns [""] there. *)
Definition join (args : list string) : string :=
  match args with
  | [] => ""
  | a :: p => fold_left join_step p a
  end.

(** [p[:p.rfind(sep) + 1]]: the text up to the last separator. *)
Fixpoint head_of (p : string) : string :=
  match p with
  | EmptyString => EmptyString
  | String a p' =>
      if Str.contains "/" p' then String a (head_of p')
      else if bool_decide (a = sep) then String a EmptyString
      else EmptyString
  end.

(** [s.rstrip(sep)]. *)
Fixpoint rstrip_sep (s : string) : string :=
  match s with
  | EmptyString => EmptyString
  | String a s' =>
      match rstrip_sep s' with
      | EmptyString =>
          if bool_decide (a = sep) then EmptyString else String a EmptyString
      | r => String a r
      end
  end.

(** [posixpath.dirname(p)]:
<<
    i = p.rfind(sep) + 1
    head = p[:i]
    if head and head != sep*len(head):
        head = head.rstrip(sep)
    return head
>> *)
Definition dirname (p : string) : string :=
  let head := head_of p in
  if Str.forallb (fun a => bool_decide (a = sep)) head then head
  else rstrip_sep head.

End posixpath.

(** ** [ntpath.join], on relative segments *)

Module ntpath.

(** One round of the loop of [ntpath.join] for a segment [b] that has
    neither a drive nor a root, after a [path] without a drive:
<<
    if result_path and result_path[-1] not in '\\/':
        result_path = result_path + '\\'
    result_path = result_path + p_path
>> *)
Definition join_step (path b : string) : string :=
  if bool_decide (path = "") || Str.endswith_char "\" path
     || Str.endswith_char "/" path
  then path +:+ b
  else path +:+ "\" +:+ b.

(** [ntpath.join(a, *p)], the [os.path.join] of a Windows host, when
    no argument has a drive (a colon in second place, or two leading
    separators) and no argument after the first begins with a
    separator. *)
Definition join (args : list string) : string :=
  match args with
  | [] => ""
  | a :: p => fold_left join_step p a
  end.

End ntpath.

(** ** [urllib.parse.urlparse] and [pystac.utils] *)

(** What the scripts read of a [urllib.parse.ParseResult]: the scheme,
    and [rest], everything after ["<scheme>:"]; [path_is_rooted] below
    reads off [rest] whether its path component begins with [/]. *)
Record URLParseResult := mkURLParseResult {
  scheme : string;
  rest : string
}.

(** The characters [urllib.parse.scheme_chars]: ASCII letters, digits and
    [+-.]. *)
Definition scheme_char (a : ascii) : bool :=
  Str.is_ascii_alpha a || Str.is_ascii_digit a
  || bool_decide (a = "+"%char) || bool_decide (a = "-"%char)
  || bool_decide (a = "."%char).

(** The characters [urlsplit] strips from the left of a URL (C0 control
    characters and the space) and the ones it removes everywhere (tab,
    line feed, carriage return). *)
Definition c0_control_or_space (a : ascii) : bool :=
  (N_of_ascii a <=? 32)%N.

Definition unsafe_url_byte (a : ascii) : bool :=
  let n := N_of_ascii a in ((n =? 9) || (n =? 10) || (n =? 13))%N.

(** [urllib.parse.urlsplit], as far as the scheme:
<<
      url = url.lstrip(_WHATWG_C0_CONTROL_OR_SPACE)
      for b in _UNSAFE_URL_BYTES_TO_REMOVE:
          url = url.replace(b, "")
      i = url.find(':')
      if i > 0 and url[0].isascii() and url[0].isalpha():
          for c in url[:i]:
              if c not in scheme_chars: break
          else:
              scheme, url = url[:i].lower(), url[i+1:]
>>
    What follows in [urlsplit] splits [url] further and raises
    [ValueError] for a network location with unbalanced brackets; the
    function here is total, and the statements about the parse are made
    for hrefs without brackets ([plain_href] below). *)
Definition urlparse (url : string) : URLParseResult :=
  let url := Str.remove unsafe_url_byte
               (Str.lstrip c0_control_or_space url) in
  match Str.split_at ":"%char url with
  | Some (String a pre, post) =>
      if Str.is_ascii_alpha a && Str.forallb scheme_char (String a pre)
      then mkURLParseResult (Str.lower (String a pre)) post
      else mkURLParseResult "" url
  | _ => mkURLParseResult "" url
  end.

(** [pystac.utils.safe_urlparse]: a Windows drive letter parsed as a
    scheme (["C:\\..."], ["C:/..."] but not ["C://..."]) is put back into
    the path, leaving the scheme empty. *)
Definition safe_urlparse (href : string) : URLParseResult :=
  let parsed := urlparse href in
  if negb (bool_decide (scheme parsed = ""))
     && (Str.startswith (scheme parsed +:+ ":\") (Str.lower href)
         || (Str.startswith (scheme parsed +:+ ":/") (Str.lower href)
             && negb (Str.startswith (scheme parsed +:+ "://") (Str.lower href))))
  then mkURLParseResult "" href
  else parsed.

(** The first of the characters [/?#] in [s], which end the network
    location in [urllib.parse._splitnetloc]. *)
Fixpoint netloc_delimiter (s : string) : option ascii :=
  match s with
  | EmptyString => None
  | String a s' =>
      if bool_decide (a = "/"%char) || bool_decide (a = "?"%char)
         || bool_decide (a = "#"%char)
      then Some a else netloc_delimiter s'
  end.

(** Whether [parsed.path] begins with [/]: after ["//"] the network
    location runs up to the first of [/?#] and the path begins there;
    without ["//"] the path begins at once.  (Query and fragment are
    split off the end of the path and do not change its first
    character.) *)
Definition path_is_rooted (parsed : URLParseResult) : bool :=
  match rest parsed with
  | String "/" (String "/" after) =>
      bool_decide (netloc_delimiter after = Some "/"%char)
  | r => Str.startswith_char "/" r
  end.

(** [pystac.utils.JoinType]. *)
Module JoinType.
Inductive t := PATH | URL.

Definition from_parsed_uri (parsed_uri : URLParseResult) : t :=
  if bool_decide (scheme parsed_uri = "") then PATH else URL.
End JoinType.

(** [pystac.utils.join_path_or_url]: [os.path.join] for a path,
    [posixpath.join] for a URL.  [os_path_join] is the [os.path.join] of
    the platform the script runs on. *)
Definition join_path_or_url (os_path_join : list string -> string)
    (join_type : JoinType.t) (args : list string) : string :=
  match join_type with
  | JoinType.PATH => os_path_join args
  | JoinType.URL => posixpath.join args
  end.

(** ** STAC documents *)

(** A link of a STAC document: relation and target href. *)
Record Link := mkLink {
  link_rel : string;
  link_href : string
}.

Inductive STACObjectType := CATALOG | COLLECTION | ITEM.

(** A STAC JSON document as the scripts see it: its kind, identifier,
    description, title, links, and the rest of the JSON text, which they
    never inspect. *)
Record Doc := mkDoc {
  doc_type : STACObjectType;
  doc_id : string;
  doc_description : string;
  doc_title : option string;
  doc_links : list Link;
  doc_extra : string
}.

(** A [pystac.Item] in memory. *)
Record Item := mkItem {
  item_id : string;
  item_links : list Link;
  item_extra : string
}.

(** ** Layout strategies *)

(** The interface [pystac.layout.HrefLayoutStrategy], for the two kinds
    of object the scripts place. *)
Record HrefLayoutStrategy := mkStrategy {
  strategy_get_collection_href : Doc -> string -> string;
  strategy_get_item_href : Item -> string -> string
}.

Module BestPracticesLayoutStrategy.
Section Layout.
Variable os_path_join : list string -> string.

(** [BestPracticesLayoutStrategy.get_collection_href] for a collection
    that is not the root: [<parent_dir>/<id>/collection.json]. *)
Definition get_collection_href (col : Doc) (parent_dir : string) : string :=
  let parsed_parent_dir := safe_urlparse parent_dir in
  let join_type := JoinType.from_parsed_uri parsed_parent_dir in
  let col_root := join_path_or_url os_path_join join_type
                    [parent_dir; doc_id col] in
  join_path_or_url os_path_join join_type [col_root; "collection.json"].

(** [BestPracticesLayoutStrategy.get_item_href], the method that
    [ItemInSubdirLayout] overrides: [<parent_dir>/<id>/<id>.json]. *)
Definition get_item_href (item : Item) (parent_dir : string) : string :=
  let parsed_parent_dir := safe_urlparse parent_dir in
  let join_type := JoinType.from_parsed_uri parsed_parent_dir in
  let item_root := join_path_or_url os_path_join join_type
                     [parent_dir; item_id item] in
  join_path_or_url os_path_join join_type
    [item_root; item_id item +:+ ".json"].

Definition new : HrefLayoutStrategy :=
  mkStrategy get_collection_href get_item_href.

End Layout.
End BestPracticesLayoutStrategy.

Module ItemInSubdirLayout.
Section Layout.
Variable os_path_join : list string -> string.

(** [ItemInSubdirLayout.get_item_href(self, item, parent_dir)]. *)
Definition get_item_href (item : Item) (parent_dir : string) : string :=
  let parsed_parent_dir := safe_urlparse parent_dir in
  let join_type := JoinType.from_parsed_uri parsed_parent_dir in
  let items_dir := "items" in
  let item_filename := item_id item +:+ ".json" in
  join_path_or_url os_path_join join_type
    [parent_dir; items_dir; item_filename].

(** [ItemInSubdirLayout()]: the inherited methods and the override. *)
Definition new : HrefLayoutStrategy :=
  mkStrategy (BestPracticesLayoutStrategy.get_collection_href os_path_join)
             get_item_href.

End Layout.
End ItemInSubdirLayout.

(** ** Vocabulary for the layout *)

(** The hrefs for which [urlparse] does no cleaning and cannot raise:
    printable ASCII without brackets, not beginning with a space.
    (Outside of them [urlsplit] strips or removes characters, which the
    model does too, and raises [ValueError] on a bracket in the network
    location, which the model does not.) *)
Definition plain_char (a : ascii) : bool :=
  let n := N_of_ascii a in
  ((32 <=? n) && (n <? 127))%N
  && negb (bool_decide (a = "["%char)) && negb (bool_decide (a = "]"%char)).

Definition plain_href (s : string) : bool :=
  Str.forallb plain_char s && negb (Str.startswith_char " " s).

(** What the specification calls a URL, read as RFC 3986 does
    (section 3): [URI = scheme ":" hier-part ...] with
    [scheme = ALPHA *( ALPHA / DIGIT / "+" / "-" / "." )]. *)
Module RFC3986.

Definition ALPHA (a : ascii) : bool :=
  let n := N_of_ascii a in
  (((65 <=? n) && (n <=? 90)) || ((97 <=? n) && (n <=? 122)))%N.

Definition DIGIT (a : ascii) : bool :=
  let n := N_of_ascii a in ((48 <=? n) && (n <=? 57))%N.

(** The text after the colon, for a text that continues a scheme up to
    a colon. *)
Fixpoint after_scheme (s : string) : option string :=
  match s with
  | EmptyString => None
  | String a s' =>
      if bool_decide (a = ":"%char) then Some s'
      else if ALPHA a || DIGIT a || bool_decide (a = "+"%char)
              || bool_decide (a = "-"%char) || bool_decide (a = "."%char)
           then after_scheme s'
           else None
  end.

(** The text after ["<scheme>:"], when [s] begins with a scheme and a
    colon. *)
Definition hier_part (s : string) : option string :=
  match s with
  | String a s' => if ALPHA a then after_scheme s' else None
  | EmptyString => None
  end.

Definition is_url (s : string) : bool :=
  match hier_part s with Some _ => true | None => false end.

End RFC3986.

(** What [safe_urlparse] makes of the text after the scheme: a
    backslash, or a slash that is not doubled, marks a drive letter. *)
Definition drive_like (r : string) : bool :=
  Str.startswith "\" r
  || (Str.startswith "/" r && negb (Str.startswith "//" r)).


(** ** Exceptions, the world, and the monad of script actions *)

(** The exceptions below [Exception] that the scripts tell apart.  The
    string is [str(e)]. *)
Inductive PyException :=
| FileNotFoundError (msg : string)
| OtherError (msg : string).

Definition str (e : PyException) : string :=
  match e with
  | FileNotFoundError msg => msg
  | OtherError msg => msg
  end.

(** [SystemExit] derives from [BaseException], not from [Exception]: an
    [except Exception] clause lets it through. *)
Inductive BaseException :=
| Exception (e : PyException)
| SystemExit (code : Z).

(** What is found at an href: text that does not load ([msg] is the
    error the loader raises on it), or a STAC document. *)
Inductive File :=
| Unreadable (msg : string)
| Json (d : Doc).

(** The library calls with an effect outside the interpreter. *)
Inductive IOEvent :=
| EvRead (href : string)       (* [from_file(href)] *)
| EvValidateAll                (* [validate_all(...)] *)
| EvSave                       (* [Catalog.save(...)] *)
| EvWrite (href : string).     (* [save_object(dest_href=href)] *)

(** The state a script runs in: the documents by href, the lines the
    script prints to the two streams (one entry per [print] call) and
    the log of library calls.

    An href names a file as the process sees it from its working
    directory, which no script changes: [pystac] resolves a relative
    path against that directory before it opens the file or stores it
    as a self href, and the model keeps the path as the script wrote
    it.  The streams hold what [print] and [argparse] write; what the
    [logging] module of a library writes is not part of them. *)
Record World := mkWorld {
  fs : gmap string File;
  stdout : list string;
  stderr : list string;
  events : list IOEvent
}.

Inductive Result (A : Type) :=
| Return (a : A)
| Raise (e : BaseException).
Arguments Return {A} a.
Arguments Raise {A} e.

Definition M (A : Type) : Type := World -> Result A * World.

Definition ret {A} (a : A) : M A := fun w => (Return a, w).

Definition bind {A B} (m : M A) (k : A -> M B) : M B :=
  fun w => match m w with
           | (Return a, w') => k a w'
           | (Raise e, w') => (Raise e, w')
           end.

Notation "'do' x <- m ; k" := (bind m (fun x => k))
  (at level 10, x name, m at level 100, k at level 200,
   format "'[v' 'do'  x  <-  m ; '/' k ']'").
Notation "'run' m ; k" := (bind m (fun _ => k))
  (at level 10, m at level 100, k at level 200,
   format "'[v' 'run'  m ; '/' k ']'").

Definition raise {A} (e : PyException) : M A :=
  fun w => (Raise (Exception e), w).

(** [sys.exit(code)]. *)
Definition sys_exit {A} (code : Z) : M A :=
  fun w => (Raise (SystemExit code), w).

(** [try: body  except Exception as e: handler(e)]. *)
Definition try_except {A} (body : M A) (handler : PyException -> M A) : M A :=
  fun w => match body w with
           | (Raise (Exception e), w') => handler e w'
           | r => r
           end.

(** [print(line)] and [print(line, file=sys.stderr)]. *)
Definition print (line : string) : M unit :=
  fun w => (Return tt, mkWorld (fs w) (stdout w ++ [line]) (stderr w) (events w)).

Definition eprint (line : string) : M unit :=
  fun w => (Return tt, mkWorld (fs w) (stdout w) (stderr w ++ [line]) (events w)).

Definition log (ev : IOEvent) : M unit :=
  fun w => (Return tt, mkWorld (fs w) (stdout w) (stderr w) (events w ++ [ev])).

(** Lifts a library call that only reads the documents. *)
Definition lift_read {A} (f : gmap string File -> PyException + A) : M A :=
  fun w => match f (fs w) with
           | inl e => (Raise (Exception e), w)
           | inr a => (Return a, w)
           end.

(** Lifts a library call that may rewrite documents. *)
Definition lift_write (f : gmap string File -> PyException + gmap string File)
  : M unit :=
  fun w => match f (fs w) with
           | inl e => (Raise (Exception e), w)
           | inr fs' => (Return tt, mkWorld fs' (stdout w) (stderr w) (events w))
           end.

(** [for x in xs: acc = body(acc, x)], stopping at the first raise. *)
Fixpoint for_loop {A S} (xs : list A) (body : S -> A -> M S) (acc : S) : M S :=
  match xs with
  | [] => ret acc
  | x :: xs' => do acc' <- body acc x; for_loop xs' body acc'
  end.

(** The exit status of the interpreter after running a script body. *)
Definition exit_status {A} (r : Result A) : Z :=
  match r with
  | Return _ => 0
  | Raise (SystemExit code) => code
  | Raise (Exception _) => 1
  end.

Definition nl : string := String (ascii_of_nat 10) "".

(** The world after some lines were printed and some library calls
    logged, with the documents as they were. *)
Definition printed (w : World) (out err : list string) (evs : list IOEvent)
  : World :=
  mkWorld (fs w) (stdout w ++ out) (stderr w ++ err) (events w ++ evs).

(** The world after one round of the builder's loop: one file was opened
    and one line printed. *)
Definition after_round (w : World) (h line : string) : World :=
  mkWorld (fs w) (stdout w ++ [line]) (stderr w) (events w ++ [EvRead h]).

(** ** Catalogs in memory *)

Record Extent := mkExtent {
  spatial : list (list Z);                         (* bounding boxes *)
  temporal : list (option (Z * Z * Z) * option (Z * Z * Z))
                                                   (* intervals of UTC dates *)
}.

(** A [pystac.Catalog] in memory.  [cat_doc] holds what [to_dict]
    serialises, with the links that are kept as hrefs (the self link
    among them); [cat_children] are the resolved child objects that
    [add_child] attached; the last three are the attributes the builder
    assigns on the object. *)
Record Catalog := mkCatalog {
  cat_doc : Doc;
  cat_children : list Doc;
  cat_extent : option Extent;
  cat_summaries : option (list (string * list string));
  cat_license : option string
}.

(** ** The black boxes of the libraries *)

Class Library := {
  (** [pathlib.Path], its [/] and its [str]. *)
  Path : Type;
  joinpath : Path -> string -> Path;
  path_str : Path -> string;
  (** [os.path.join] and [os.path.dirname] of the platform. *)
  os_path_join : list string -> string;
  os_path_dirname : string -> string;
  (** [pystac.utils.make_absolute_href(source_href, start_href)]. *)
  make_absolute_href : string -> string -> string;
  (** What [Link.get_href] writes for a hierarchical link of the owner
      (absolute hrefs are made relative in a relative catalog). *)
  transform_hierarchical_href : Doc -> Link -> string;
  (** The schema validation engine: [None] when the document conforms,
      the error message otherwise. *)
  schema_error : Doc -> option string;
  (** The message of an error that [pystac] raises inside [add_child]
      ([None]: the child is attached).  [add_child] opens no file, so
      the error is not a [FileNotFoundError]; the child link is the last
      thing [add_child] adds, so a raise leaves the children as they
      were. *)
  add_child_error : Catalog -> Doc -> option string;
  (** [Catalog.save(catalog_type=SELF_CONTAINED)] on the documents. *)
  Catalog_save : Catalog -> gmap string File -> PyException + gmap string File;
  (** How deep [validate_all] can recurse before [RecursionError]. *)
  recursion_limit : nat
}.

(** ** [pystac], as far as the scripts drive it *)

Definition is_self (l : Link) : bool := bool_decide (link_rel l = "self").

Definition HIERARCHICAL_LINKS : list string :=
  ["root"; "child"; "parent"; "collection"; "item"; "items"].

Definition Doc_set_links (d : Doc) (links : list Link) : Doc :=
  mkDoc (doc_type d) (doc_id d) (doc_description d) (doc_title d) links
        (doc_extra d).

(** [STACObject.get_self_href]: the href of the first self link. *)
Definition Doc_get_self_href (d : Doc) : option string :=
  link_href <$> head (filter (fun l => is_self l = true) (doc_links d)).

(** [STACObject.set_self_href(href)]: drop the self links, add one.
    (The href is kept as it is given; see [World] for relative
    paths.) *)
Definition Doc_set_self_href (d : Doc) (h : string) : Doc :=
  Doc_set_links d
    (filter (fun l => is_self l = false) (doc_links d) ++ [mkLink "self" h]).

Definition is_root (l : Link) : bool := bool_decide (link_rel l = "root").

(** [Link.root(c)], added by the constructor of [Catalog] (and of
    [Collection]) to the object [c] itself.  The target of the link is
    the object, no href is stored; the model keeps the empty href for
    it.  How the link is written to disk is decided by
    [transform_hierarchical_href]. *)
Definition Link_root_self : Link := mkLink "root" "".

(** The loop of [from_dict] over the links of the document, when an
    href is given:
<<
    for link in links:
        if link["rel"] == pystac.RelType.ROOT:
            # Remove the link that's generated in Catalog's constructor.
            cat.remove_links(pystac.RelType.ROOT)
        if link["rel"] != pystac.RelType.SELF or href is None:
            cat.add_link(Link.from_dict(link))
>> *)
Definition add_loaded_link (links : list Link) (l : Link) : list Link :=
  let links := if is_root l
               then filter (fun x => is_root x = false) links
               else links in
  if is_self l then links else links ++ [l].

(** [from_dict(d, href=href)]: the constructor gives the object a root
    link to itself and [href] as its self href; then the links of the
    document are added, the self links left out.  The root link of the
    constructor stays when the document has no root link. *)
Definition from_dict (d : Doc) (h : string) : Doc :=
  Doc_set_links d
    (fold_left add_loaded_link (doc_links d)
       [Link_root_self; mkLink "self" h]).

(** [StacIO.read_json(href)]. *)
Definition read_json (files : gmap string File) (h : string)
  : PyException + Doc :=
  match files !! h with
  | None =>
      inl (FileNotFoundError
             ("[Errno 2] No such file or directory: '" +:+ h +:+ "'"))
  | Some (Unreadable msg) => inl (OtherError msg)
  | Some (Json d) => inr d
  end.

(** [for x in xs: f(x)] for calls that raise or return nothing. *)
Fixpoint for_each {A} (xs : list A) (f : A -> PyException + unit)
  : PyException + unit :=
  match xs with
  | [] => inr tt
  | x :: xs' => match f x with
                | inl e => inl e
                | inr _ => for_each xs' f
                end
  end.

(** The links [validate_all] follows. *)
Definition followed (l : Link) : bool :=
  bool_decide (link_rel l = "child") || bool_decide (link_rel l = "item").

(** [pystac.utils.is_absolute_href]:
<<
    parsed = safe_urlparse(href)
    return parsed.scheme not in ["", "file"] or os.path.isabs(parsed.path)
>>
    with the [os.path.isabs] of a POSIX host: the path begins with
    [/]. *)
Definition is_absolute_href (h : string) : bool :=
  let parsed := safe_urlparse h in
  negb (bool_decide (scheme parsed = "") || bool_decide (scheme parsed = "file"))
  || path_is_rooted parsed.

(** Every link of the document has a relative href. *)
Definition links_relative (d : Doc) : Prop :=
  Forall (fun l => is_absolute_href (link_href l) = false) (doc_links d).

Section Pystac.
Context `{Library}.

Definition Catalog_get_self_href (c : Catalog) : option string :=
  Doc_get_self_href (cat_doc c).

Definition Catalog_set_self_href (c : Catalog) (h : string) : Catalog :=
  mkCatalog (Doc_set_self_href (cat_doc c) h) (cat_children c)
            (cat_extent c) (cat_summaries c) (cat_license c).

(** [pystac.Catalog(id=..., description=..., title=...)]: the new
    catalog is its own root. *)
Definition Catalog_new (id description title : string) : Catalog :=
  mkCatalog (mkDoc CATALOG id description (Some title) [Link_root_self] "")
            [] None None None.

(** [Link.get_href]: only hierarchical links are rewritten. *)
Definition Link_get_href (owner : Doc) (l : Link) : string :=
  if bool_decide (link_rel l ∈ HIERARCHICAL_LINKS)
  then transform_hierarchical_href owner l
  else link_href l.

(** [Catalog.to_dict(include_self_link=True)]: the stored links, then
    a child link for every resolved child. *)
Definition to_dict (c : Catalog) : Doc :=
  let owner := cat_doc c in
  let child_link (ch : Doc) :=
    mkLink "child" (default "" (Doc_get_self_href ch)) in
  Doc_set_links owner
    (map (fun l => mkLink (link_rel l) (Link_get_href owner l))
         (doc_links owner ++ map child_link (cat_children c))).

(** [pystac.STACTypeError(d, cls)], raised for a document that is not
    of the class asked for; [expected] is [cls.__name__]. *)
Definition STACTypeError (d : Doc) (expected : string) : PyException :=
  OtherError ("JSON (id = " +:+ doc_id d +:+ ") does not represent a "
              +:+ expected +:+ " instance.").

(** [pystac.Collection.from_file(href)].  A document that is not a
    collection is refused with [STACTypeError]. *)
Definition Collection_from_file (h : string) : M Doc :=
  run log (EvRead h);
  do d <- lift_read (fun files => read_json files h);
  match doc_type d with
  | COLLECTION => ret (from_dict d h)
  | _ => raise (STACTypeError d "Collection")
  end.

(** [pystac.Catalog.from_file(href)]. *)
Definition Catalog_from_file (h : string) : M Catalog :=
  run log (EvRead h);
  do d <- lift_read (fun files => read_json files h);
  match doc_type d with
  | CATALOG => ret (mkCatalog (from_dict d h) [] None None None)
  | _ => raise (STACTypeError d "Catalog")
  end.

(** [catalog.add_child(child, strategy=strategy)]: the child gets the
    href the strategy computes from the directory of the catalog's
    self href, and is appended to the children. *)
Definition placed_child (catalog : Catalog) (child : Doc)
    (strategy : HrefLayoutStrategy) : Doc :=
  match Catalog_get_self_href catalog with
  | Some self_href =>
      Doc_set_self_href child
        (strategy_get_collection_href strategy child
           (os_path_dirname self_href))
  | None => child
  end.

Definition add_child (catalog : Catalog) (child : Doc)
    (strategy : HrefLayoutStrategy) : M Catalog :=
  match add_child_error catalog child with
  | Some msg => raise (OtherError msg)
  | None =>
      ret (mkCatalog (cat_doc catalog)
             (cat_children catalog ++ [placed_child catalog child strategy])
             (cat_extent catalog) (cat_summaries catalog)
             (cat_license catalog))
  end.

(** [catalog.save(catalog_type=pystac.CatalogType.SELF_CONTAINED)]. *)
Definition save (catalog : Catalog) : M unit :=
  run log EvSave;
  lift_write (Catalog_save catalog).

(** [obj.save_object(dest_href=dest_href)]: one document is written.
    Before writing, [pystac] looks up the root of the object; for an
    object that is its own root, as [from_file] makes every catalog
    whose root link resolves to the file it was read from, that reads
    nothing, and this is the case modelled. *)
Definition save_object (c : Catalog) (dest_href : string) : M unit :=
  run log (EvWrite dest_href);
  lift_write (fun files => inr (<[dest_href := Json (to_dict c)]> files)).

(** The walk of [validate_all]: the object is checked against its
    schema, then every child and item link is resolved against the
    object's href, read and walked in turn.  Items are leaves. *)
Fixpoint validate_all_rec (fuel : nat) (files : gmap string File)
    (h : string) (d : Doc) : PyException + unit :=
  match fuel with
  | O => inl (OtherError "maximum recursion depth exceeded")
  | S n =>
      match schema_error d with
      | Some msg => inl (OtherError msg)
      | None =>
          match doc_type d with
          | ITEM => inr tt
          | _ =>
              for_each (filter (fun l => followed l = true) (doc_links d))
                (fun l =>
                   let target := make_absolute_href (link_href l) h in
                   match read_json files target with
                   | inl e => inl e
                   | inr d' => validate_all_rec n files target d'
                   end)
          end
      end
  end.

(** [pystac.validation.validate_all(root_catalog)]: one event for the
    call; the documents the walk reads are not logged one by one. *)
Definition validate_all (root : Catalog) : M unit :=
  run log EvValidateAll;
  lift_read (fun files =>
    validate_all_rec recursion_limit files
      (default "" (Catalog_get_self_href root)) (cat_doc root)).

End Pystac.

Arguments from_dict : simpl never.

(** ** [make_catalog.py] *)

Definition CATALOG_ID : string := "calkoen-phd-stac".
Definition CATALOG_TITLE : string :=
  "Living by the Coast as Sea-level Rise is Accelerating".
Definition CATALOG_DESCRIPTION : string :=
  "This SpatioTemporal Asset Catalog (STAC) contains coastal datasets produced or cataloged "
  +:+ "during the PhD research of F.R. Calkoen (TU Delft / Deltares). The catalog includes data on "
  +:+ "coastal classification, coastal exposure, and other related characteristics. "
  +:+ "Following the conclusion of the CoCliCo project in September 2025, accessing the datasets "
  +:+ "now requires an SAS token, which is available from Deltares upon reasonable request. Alternatively, "
  +:+ "the datasets can be downloaded from Zenodo repositories. Please see associated publications for details.".

Definition CATALOG_PUBLISHED_URL : string :=
  "https://coclico.blob.core.windows.net/stac/v1/catalog.json".

Definition COLLECTION_DIRS : list string :=
  [ "gcts";
    "gctr";
    "global-coastal-typology";
    "shoreline-projections";
    "s2-l2a-composite";
    "coastal-grid";
    "shoreline-projections-edito";
    "coastal-zone";
    "shorelinemonitor-series";
    "shorelinemonitor-shorelines";
    "overture-buildings";
    "deltares-delta-dtm" ].

Definition KEYWORDS : list string :=
  [ "coastal analytics";
    "coastal science";
    "coastal hazards";
    "coastal erosion";
    "coastal classification";
    "coastal typology";
    "slippy-map-tiles";
    "quadkeys";
    "climate change";
    "climate adaptation";
    "sea level rise";
    "sentinel";
    "transects";
    "satellite-derived-shorelines";
    "overture";
    "deltares";
    "coclico" ].

Definition SPATIAL_EXTENT : list (list Z) := [[-180; -90; 180; 90]].
Definition TEMPORAL_EXTENT : list (option (Z * Z * Z) * option (Z * Z * Z)) :=
  [(Some (1984, 1, 1), None)].
Definition LICENSE : string := "various".

(** [sorted(xs)] on strings: a stable merge sort on the code point
    order, which on UTF-8 text is the byte order [String.le]. *)
Definition sorted (xs : list string) : list string := merge_sort String.le xs.

(** The lines printed by the save step (lines 156, 162 and 168). *)
Definition saving_line : string :=
  nl +:+ "Saving catalog as SELF_CONTAINED to create relative links...".
Definition anchoring_line : string :=
  "Anchoring catalog by adding absolute self link: " +:+ CATALOG_PUBLISHED_URL.
Definition saved_line (catalog_path_str : string) : string :=
  nl +:+ "Successfully saved RELATIVE PUBLISHED catalog to: "
  +:+ catalog_path_str.

(** The line printed before the validation block (line 145). *)
Definition validating_line : string :=
  nl +:+ "Validating catalog and all children/items (this may take a moment)...".

Section Builder.
Context `{Library}.

(** [output_dir / collection_id / "collection.json"]. *)
Definition collection_path_of (output_dir : Path) (collection_id : string)
  : Path :=
  joinpath (joinpath output_dir collection_id) "collection.json".

Definition warning_not_found (collection_path : Path) : string :=
  "  - Warning: Could not find " +:+ path_str collection_path
  +:+ ". Skipping.".

Definition warning_not_processed (collection_path : Path) (e : PyException)
  : string :=
  "  - Warning: Could not process " +:+ path_str collection_path
  +:+ ". Error: " +:+ str e +:+ ". Skipping.".

(** The body of the loop over the collection ids (lines 131-142). *)
Definition attach_collection (output_dir : Path) (catalog : Catalog)
    (collection_id : string) : M Catalog :=
  let collection_path := collection_path_of output_dir collection_id in
  try_except
    (do child_collection <- Collection_from_file (path_str collection_path);
     do catalog' <- add_child catalog child_collection
                      (ItemInSubdirLayout.new os_path_join);
     run print ("  + Read collection '" +:+ collection_id +:+ "'");
     ret catalog')
    (fun e =>
       match e with
       | FileNotFoundError _ =>
           run print (warning_not_found collection_path);
           ret catalog
       | _ =>
           run print (warning_not_processed collection_path e);
           ret catalog
       end).

(** Lines 113-142: the root catalog is created and the collections
    are attached. *)
Definition assemble_catalog (output_dir : Path)
    (collection_dirs : list string) : M Catalog :=
  run print ("Creating STAC Catalog '" +:+ CATALOG_ID +:+ "'...");
  let catalog_path := joinpath output_dir "catalog.json" in
  let catalog := Catalog_new CATALOG_ID CATALOG_DESCRIPTION CATALOG_TITLE in
  let catalog :=
    mkCatalog (cat_doc catalog) (cat_children catalog)
      (Some (mkExtent SPATIAL_EXTENT TEMPORAL_EXTENT))
      (Some [("keywords", KEYWORDS)])
      (Some LICENSE) in
  let catalog := Catalog_set_self_href catalog (path_str catalog_path) in
  run print ("Reading " +:+ pretty (length collection_dirs)
             +:+ " child collections from disk...");
  for_loop (sorted collection_dirs) (attach_collection output_dir) catalog.

(** Lines 145-151: the validation block.  [validation] stands for
    line 147; the result tells whether the function goes on ([true])
    or returns from the [except] clause ([false]). *)
Definition validate_before_save (validation : M unit) : M bool :=
  run print validating_line;
  try_except
    (run validation;
     run print "Validation successful!";
     ret true)
    (fun e =>
       run eprint ("Validation failed: " +:+ str e);
       ret false).

(** Lines 156-168: the self-contained save and the re-anchoring of
    the root. *)
Definition anchor_root (catalog_path : Path) : M unit :=
  run print ("Anchoring catalog by adding absolute self link: "
             +:+ CATALOG_PUBLISHED_URL);
  do root_catalog <- Catalog_from_file (path_str catalog_path);
  let root_catalog := Catalog_set_self_href root_catalog CATALOG_PUBLISHED_URL in
  run save_object root_catalog (path_str catalog_path);
  print (nl +:+ "Successfully saved RELATIVE PUBLISHED catalog to: "
         +:+ path_str catalog_path).

Definition save_and_anchor (catalog : Catalog) (catalog_path : Path)
  : M unit :=
  run print (nl +:+ "Saving catalog as SELF_CONTAINED to create relative links...");
  run save catalog;
  anchor_root catalog_path.

(** [create_and_save_catalog] with the statement of line 147 as a
    parameter. *)
Definition create_and_save_catalog_with (validation : Catalog -> M unit)
    (output_dir : Path) (collection_dirs : list string) : M unit :=
  do catalog <- assemble_catalog output_dir collection_dirs;
  do proceed <- validate_before_save (validation catalog);
  if proceed : bool
  then save_and_anchor catalog (joinpath output_dir "catalog.json")
  else ret tt.

(** [create_and_save_catalog(output_dir, collection_dirs)].  Line 147,
    [catalog.validate_all()], is commented out: nothing runs there. *)
Definition create_and_save_catalog (output_dir : Path)
    (collection_dirs : list string) : M unit :=
  create_and_save_catalog_with (fun _ => ret tt) output_dir collection_dirs.

End Builder.

(** ** Vocabulary for the re-anchor phase *)

(** The links of a loaded object other than its self link: the links of
    the document that are not self links, with one root link, the last
    of the document or else the one of the constructor. *)
Definition kept_links (d : Doc) : list Link :=
  fold_left add_loaded_link (doc_links d) [Link_root_self].

(** A link that is neither a root link nor a self link. *)
Definition is_plain_link (l : Link) : bool :=
  negb (is_root l) && negb (is_self l).

Section AnchorVocabulary.
Context `{Library}.

(** The root document that the re-anchor phase writes for the document
    [d] read at [h] (lines 163-166): [d] loaded with [h] as its self
    href, given the public URL as self href, and serialised. *)
Definition anchored (d : Doc) (h : string) : Doc :=
  to_dict (Catalog_set_self_href
             (mkCatalog (from_dict d h) [] None None None)
             CATALOG_PUBLISHED_URL).

End AnchorVocabulary.

(** ** Vocabulary for the builder's loop *)

Section LoopVocabulary.
Context `{Library}.

(** What a round of the loop prints for a name, as far as the
    documents alone decide it. *)
Definition round_line (output_dir : Path) (files : gmap string File)
    (id line : string) : Prop :=
  let collection_path := collection_path_of output_dir id in
  (files !! path_str collection_path = None ->
   line = warning_not_found collection_path)
  /\ (forall msg, files !! path_str collection_path = Some (Unreadable msg) ->
      line = warning_not_processed collection_path (OtherError msg))
  /\ (forall d, files !! path_str collection_path = Some (Json d) ->
      doc_type d <> COLLECTION ->
      line = warning_not_processed collection_path
               (STACTypeError d "Collection"))
  /\ (forall d, files !! path_str collection_path = Some (Json d) ->
      doc_type d = COLLECTION ->
      line = "  + Read collection '" +:+ id +:+ "'"
      \/ exists msg, line = warning_not_processed collection_path
                              (OtherError msg)).

(** A child of the catalog that was loaded from the collection
    document of one of the names. *)
Definition child_from (output_dir : Path) (files : gmap string File)
    (ids : list string) (child : Doc) : Prop :=
  exists id d catalog,
    id ∈ ids
    /\ files !! path_str (collection_path_of output_dir id) = Some (Json d)
    /\ doc_type d = COLLECTION
    /\ child = placed_child catalog
                 (from_dict d (path_str (collection_path_of output_dir id)))
                 (ItemInSubdirLayout.new os_path_join).

(** The child that a round attaches for a name when the root has the
    self href [root_href]: the loaded collection, with the self href
    that the layout strategy gives a collection below the directory of
    the root ([None] when the document is missing, does not load, or is
    not a collection). *)
Definition attached_child (root_href : string) (output_dir : Path)
    (files : gmap string File) (id : string) : option Doc :=
  let collection_href := path_str (collection_path_of output_dir id) in
  match files !! collection_href with
  | Some (Json d) =>
      match doc_type d with
      | COLLECTION =>
          Some (Doc_set_self_href (from_dict d collection_href)
                  (BestPracticesLayoutStrategy.get_collection_href os_path_join
                     (from_dict d collection_href)
                     (os_path_dirname root_href)))
      | _ => None
      end
  | _ => None
  end.

(** The identifier of the collection document found under a name
    ([None] when the document is missing, does not load, or is not a
    collection). *)
Definition collection_id_at (output_dir : Path) (files : gmap string File)
    (id : string) : option string :=
  match files !! path_str (joinpath (joinpath output_dir id)
                             "collection.json") with
  | Some (Json d) =>
      match doc_type d with
      | COLLECTION => Some (doc_id d)
      | _ => None
      end
  | _ => None
  end.

End LoopVocabulary.

(** ** [validate_catalog.py] *)

Module argparse.

Definition prog : string := "validate_catalog.py".
Definition usage : string := "usage: " +:+ prog +:+ " [-h] catalog_path".

(** What [parser.print_help()] writes for the parser of [main]. *)
Definition help_text : string :=
  usage +:+ nl +:+ nl
  +:+ "Validate a STAC catalog." +:+ nl +:+ nl
  +:+ "positional arguments:" +:+ nl
  +:+ "  catalog_path  Path to the root catalog.json file to validate."
  +:+ nl +:+ nl
  +:+ "options:" +:+ nl
  +:+ "  -h, --help    show this help message and exit".

Definition is_help_flag (a : string) : bool :=
  bool_decide (a = "-h") || bool_decide (a = "--help").

(** An argument that begins with the prefix character [-] and is
    longer than that.  An argument that does not is a positional for
    [argparse]; one that does is read as an option here, which is what
    [argparse] does except for the separator [--], for an abbreviation
    of [--help], for a negative number and for an argument with a
    space.  The statements about the command line are made for the
    help flags and for arguments that are not options in this sense. *)
Definition is_optional (a : string) : bool :=
  Str.startswith_char "-"%char a && bool_decide (a <> "-").

Definition join_spaces (xs : list string) : string :=
  match xs with
  | [] => ""
  | x :: xs' => fold_left (fun acc y => acc +:+ " " +:+ y) xs' x
  end.

(** [parser.error(message)]: usage and message on the error stream,
    exit status 2. *)
Definition error {A} (message : string) : M A :=
  run eprint usage;
  run eprint (prog +:+ ": error: " +:+ message);
  sys_exit 2.

(** [parser.parse_args()] for the parser of [main]: one positional
    [catalog_path] and the help option.  Returns [args.catalog_path]. *)
Definition parse_args (argv : list string) : M string :=
  if existsb is_help_flag argv
  then run print help_text;
       sys_exit 0
  else
    match filter (fun a => is_optional a = false) argv with
    | [] => error "the following arguments are required: catalog_path"
    | catalog_path :: extras =>
        match extras ++ filter (fun a => is_optional a = true) argv with
        | [] => ret catalog_path
        | unrecognized =>
            error ("unrecognized arguments: " +:+ join_spaces unrecognized)
        end
    end.

End argparse.

Section Validator.
Context `{Library}.

(** [main()], run with the command line arguments [argv]
    ([sys.argv[1:]]). *)
Definition main (argv : list string) : M unit :=
  do catalog_path <- argparse.parse_args argv;
  try_except
    (run print ("Attempting to read catalog from: " +:+ catalog_path);
     do root_catalog <- Catalog_from_file catalog_path;
     run print ("Successfully read catalog '"
                +:+ doc_id (cat_doc root_catalog) +:+ "'.");
     run print "Starting recursive validation of all collections and items...";
     run validate_all root_catalog;
     run print (nl +:+ "Validation successful!");
     run print "The STAC catalog and all its children are valid.";
     sys_exit 0)
    (fun e =>
       run eprint (nl +:+ "Validation failed.");
       run eprint ("Error: " +:+ str e);
       sys_exit 1).

End Validator.

(** ** Vocabulary for the validator *)

(** What [main] prints before the validation starts (lines 21-26). *)
Definition read_lines (catalog_path id : string) : list string :=
  ["Attempting to read catalog from: " +:+ catalog_path;
   "Successfully read catalog '" +:+ id +:+ "'.";
   "Starting recursive validation of all collections and items..."].

(** What the [except] clause of [main] prints on the error stream. *)
Definition failure_lines (e : PyException) : list string :=
  [nl +:+ "Validation failed."; "Error: " +:+ str e].

Section ValidatorVocabulary.
Context `{Library}.

(** The tree below the document [d] found at [h] is schema-valid down
    to depth [depth]: [d] conforms to its schema and, unless it is an
    item, each of its child and item links resolves to a document
    whose tree is valid in turn. *)
Fixpoint tree_valid (depth : nat) (files : gmap string File) (h : string)
    (d : Doc) : Prop :=
  match depth with
  | O => False
  | S depth' =>
      schema_error d = None
      /\ (doc_type d <> ITEM ->
          forall l : Link,
            l ∈ doc_links d ->
            followed l = true ->
            exists d' : Doc,
              files !! make_absolute_href (link_href l) h = Some (Json d')
              /\ tree_valid depth' files
                   (make_absolute_href (link_href l) h) d')
  end.

End ValidatorVocabulary.

(** ** A reference platform

    A POSIX host with simple stand-ins for the black boxes, on which the
    scripts can be run inside Rocq. *)

Module Posix.

Definition strip_dot (h : string) : string :=
  match h with
  | String "." (String "/" r) => r
  | _ => h
  end.

(** Resolves a relative href against the directory of [start_href],
    without normalising [..]. *)
Definition absolute_href (source_href start_href : string) : string :=
  if negb (bool_decide (scheme (safe_urlparse source_href) = ""))
     || Str.startswith_char "/" source_href
  then source_href
  else posixpath.join [posixpath.dirname start_href; strip_dot source_href].

(** A stand-in for the schemas: a document needs an identifier. *)
Definition id_required (d : Doc) : option string :=
  if bool_decide (doc_id d = "") then Some "'id' is a required property"
  else None.

(** A stand-in for a failure of [add_child]: a second child with the
    identifier of an attached one is refused. *)
Definition duplicate_child (c : Catalog) (child : Doc) : option string :=
  if bool_decide (doc_id child ∈ map doc_id (cat_children c))
  then Some ("duplicate child " +:+ doc_id child)
  else None.

Definition without_self (d : Doc) : Doc :=
  Doc_set_links d (filter (fun l => is_self l = false) (doc_links d)).

(** A stand-in for the self-contained save: the root and every child
    are written at their self hrefs, without self links, the root
    with a relative link to every child. *)
Definition save_self_contained (c : Catalog) (files : gmap string File)
  : PyException + gmap string File :=
  match Doc_get_self_href (cat_doc c) with
  | None => inl (OtherError "Self HREF must be set before saving")
  | Some root_href =>
      let child_link (ch : Doc) :=
        mkLink "child" ("./" +:+ doc_id ch +:+ "/collection.json") in
      let root_doc :=
        Doc_set_links (cat_doc c)
          (doc_links (without_self (cat_doc c))
           ++ map child_link (cat_children c)) in
      inr (<[root_href := Json root_doc]>
             (foldr (fun ch acc =>
                       <[default "" (Doc_get_self_href ch)
                         := Json (without_self ch)]> acc)
                    files (cat_children c)))
  end.

Definition library : Library := {|
  Path := string;
  joinpath p s := posixpath.join [p; s];
  path_str p := p;
  os_path_join := posixpath.join;
  os_path_dirname := posixpath.dirname;
  make_absolute_href := absolute_href;
  transform_hierarchical_href _ l := link_href l;
  schema_error := id_required;
  add_child_error := duplicate_child;
  Catalog_save := save_self_contained;
  recursion_limit := 1000%nat
|}.

(** The same platform with an [add_child] that never raises. *)
Definition lenient_library : Library := {|
  Path := string;
  joinpath p s := posixpath.join [p; s];
  path_str p := p;
  os_path_join := posixpath.join;
  os_path_dirname := posixpath.dirname;
  make_absolute_href := absolute_href;
  transform_hierarchical_href _ l := link_href l;
  schema_error := id_required;
  add_child_error _ _ := None;
  Catalog_save := save_self_contained;
  recursion_limit := 1000%nat
|}.

(** The same platform on a disk that refuses every save. *)
Definition read_only_library : Library := {|
  Path := string;
  joinpath p s := posixpath.join [p; s];
  path_str p := p;
  os_path_join := posixpath.join;
  os_path_dirname := posixpath.dirname;
  make_absolute_href := absolute_href;
  transform_hierarchical_href _ l := link_href l;
  schema_error := id_required;
  add_child_error := duplicate_child;
  Catalog_save _ _ := inl (OtherError "[Errno 30] Read-only file system");
  recursion_limit := 1000%nat
|}.

Definition collection (id : string) (items : list string) : Doc :=
  mkDoc COLLECTION id ("Collection " +:+ id) None
    (mkLink "root" "../catalog.json" :: mkLink "parent" "../catalog.json"
     :: map (fun i => mkLink "item" ("./items/" +:+ i +:+ ".json")) items)
    "".

Definition item (id : string) : Doc :=
  mkDoc ITEM id "" None
    [mkLink "collection" "../collection.json";
     mkLink "parent" "../collection.json"] "".

(** A release directory with two collections, one of them with an
    item, and one file that does not parse. *)
Definition release_files : gmap string File :=
  <["release/v1/gctr/collection.json" := Json (collection "gctr" ["t1"])]>
  (<["release/v1/gctr/items/t1.json" := Json (item "t1")]>
  (<["release/v1/coastal-grid/collection.json"
     := Json (collection "coastal-grid" [])]>
  (<["release/v1/coastal-zone/collection.json"
     := Unreadable "Expecting value: line 1 column 1 (char 0)"]> ∅))).

Definition release_world : World := mkWorld release_files [] [] [].

(** The release directory after a self-contained save of the root. *)
Definition root_doc : Doc :=
  mkDoc CATALOG CATALOG_ID CATALOG_DESCRIPTION (Some CATALOG_TITLE)
    [mkLink "root" "./catalog.json";
     mkLink "child" "./coastal-grid/collection.json";
     mkLink "child" "./gctr/collection.json"] "".

Definition saved_world : World :=
  mkWorld (<["release/v1/catalog.json" := Json root_doc]> release_files)
    [] [] [].

(** The same with a root that also links to a collection that is not
    on disk. *)
Definition dangling_root_doc : Doc :=
  Doc_set_links root_doc
    (doc_links root_doc ++ [mkLink "child" "./gcts/collection.json"]).

Definition dangling_world : World :=
  mkWorld
    (<["release/v1/catalog.json" := Json dangling_root_doc]> release_files)
    [] [] [].

End Posix.

(** * Properties *)

(** ** Strings *)

Lemma str_app_cons a s t : String a s +:+ t = String a (s +:+ t).
Proof. reflexivity. Qed.

Lemma str_app_nil_r s : s +:+ "" = s.
Proof. induction s as [|a s IH]; [reflexivity|]. rewrite str_app_cons. by f_equal. Qed.

Lemma str_app_assoc s t u : (s +:+ t) +:+ u = s +:+ (t +:+ u).
Proof.
  induction s as [|a s IH]; [reflexivity|].
  rewrite !str_app_cons. by f_equal.
Qed.

Lemma str_length_app s t :
  String.length (s +:+ t) = (String.length s + String.length t)%nat.
Proof.
  induction s as [|a s IH]; [reflexivity|].
  rewrite str_app_cons. simpl. by rewrite IH.
Qed.

Lemma endswith_char_app c s t :
  t <> "" -> Str.endswith_char c (s +:+ t) = Str.endswith_char c t.
Proof.
  intros Ht. induction s as [|a s IH]; [reflexivity|].
  rewrite str_app_cons. simpl.
  destruct (s +:+ t) eqn:E; [|exact IH].
  destruct s; [|discriminate E]. by destruct Ht.
Qed.

Lemma startswith_char_app c s t :
  s <> "" -> Str.startswith_char c (s +:+ t) = Str.startswith_char c s.
Proof. destruct s; [by intros []|reflexivity]. Qed.

Lemma app_not_nil_r s t : t <> "" -> s +:+ t <> "".
Proof.
  intros Ht E. apply (f_equal String.length) in E.
  rewrite str_length_app in E. destruct t; [by destruct Ht|]. simpl in E. lia.
Qed.

(** ** The layout strategy *)

Section LayoutFacts.
Variable os_path_join : list string -> string.

(** The href is the join, of the kind chosen from the parent, of the
    three segments. *)
Lemma get_item_href_unfold (item : Item) (parent_dir : string) :
  ItemInSubdirLayout.get_item_href os_path_join item parent_dir
  = join_path_or_url os_path_join
      (JoinType.from_parsed_uri (safe_urlparse parent_dir))
      [parent_dir; "items"; item_id item +:+ ".json"].
Proof. reflexivity. Qed.

Lemma get_item_href_URL (item : Item) (parent_dir : string) :
  scheme (safe_urlparse parent_dir) <> "" ->
  ItemInSubdirLayout.get_item_href os_path_join item parent_dir
  = posixpath.join [parent_dir; "items"; item_id item +:+ ".json"].
Proof.
  intros Hs. rewrite get_item_href_unfold.
  unfold JoinType.from_parsed_uri. by rewrite bool_decide_eq_false_2.
Qed.

Lemma get_item_href_PATH (item : Item) (parent_dir : string) :
  scheme (safe_urlparse parent_dir) = "" ->
  ItemInSubdirLayout.get_item_href os_path_join item parent_dir
  = os_path_join [parent_dir; "items"; item_id item +:+ ".json"].
Proof.
  intros Hs. rewrite get_item_href_unfold.
  unfold JoinType.from_parsed_uri. by rewrite bool_decide_eq_true_2.
Qed.

End LayoutFacts.

(** On a POSIX host [os.path] is [posixpath], and both kinds of join
    are the same function. *)
Lemma get_item_href_posix (item : Item) (parent_dir : string) :
  ItemInSubdirLayout.get_item_href posixpath.join item parent_dir
  = posixpath.join [parent_dir; "items"; item_id item +:+ ".json"].
Proof.
  rewrite get_item_href_unfold.
  by destruct (JoinType.from_parsed_uri _).
Qed.

Lemma filename_not_absolute (id : string) :
  Str.startswith_char "/" id = false ->
  Str.startswith_char "/" (id +:+ ".json") = false.
Proof. destruct id; [reflexivity|]. by rewrite str_app_cons. Qed.

(** [posixpath.join] of a directory and a relative name. *)
Lemma join_step_relative (path b : string) :
  Str.startswith_char "/" b = false ->
  posixpath.join_step path b
  = (if bool_decide (path = "") || Str.endswith_char "/" path
     then path else path +:+ "/") +:+ b.
Proof.
  intros Hb. unfold posixpath.join_step, posixpath.sep. rewrite Hb.
  destruct (bool_decide (path = "") || Str.endswith_char "/" path);
    [reflexivity|]. by rewrite str_app_assoc.
Qed.

Lemma posix_join_items (parent_dir id : string) :
  Str.startswith_char "/" id = false ->
  posixpath.join [parent_dir; "items"; id +:+ ".json"]
  = (if bool_decide (parent_dir = "") || Str.endswith_char "/" parent_dir
     then parent_dir else parent_dir +:+ "/")
    +:+ "items/" +:+ id +:+ ".json".
Proof.
  intros Hid. unfold posixpath.join. simpl fold_left.
  rewrite (join_step_relative parent_dir "items") by reflexivity.
  rewrite join_step_relative by by apply filename_not_absolute.
  rewrite endswith_char_app by discriminate.
  rewrite bool_decide_eq_false_2 by (apply app_not_nil_r; discriminate).
  change (false || Str.endswith_char "/" "items") with false.
  cbv iota. by rewrite !str_app_assoc.
Qed.

(** *** Directories *)



















(** *** The parse of a plain href *)

Lemma plain_char_kept (a : ascii) :
  plain_char a = true -> unsafe_url_byte a = false.
Proof.
  destruct a as [[] [] [] [] [] [] [] []]; vm_compute; congruence.
Qed.

Lemma plain_char_not_stripped (a : ascii) :
  plain_char a = true ->
  bool_decide (a = " "%char) = false ->
  c0_control_or_space a = false.
Proof.
  destruct a as [[] [] [] [] [] [] [] []]; vm_compute; congruence.
Qed.

Lemma remove_plain (s : string) :
  Str.forallb plain_char s = true -> Str.remove unsafe_url_byte s = s.
Proof.
  induction s as [|a s IH]; [reflexivity|]. simpl.
  intros [Ha Hs]%andb_true_iff.
  by rewrite (plain_char_kept a Ha), IH.
Qed.

(** [urlsplit] leaves a plain href as it is before it looks for the
    scheme. *)
Lemma clean_plain (s : string) :
  plain_href s = true ->
  Str.remove unsafe_url_byte (Str.lstrip c0_control_or_space s) = s.
Proof.
  unfold plain_href. intros [Hs Hsp]%andb_true_iff.
  apply negb_true_iff in Hsp.
  assert (Hstrip : Str.lstrip c0_control_or_space s = s).
  { destruct s as [|a s]; [reflexivity|]. simpl in *.
    apply andb_true_iff in Hs as [Ha _].
    by rewrite (plain_char_not_stripped a Ha Hsp). }
  rewrite Hstrip. by apply remove_plain.
Qed.

Lemma split_at_app (c : ascii) (s pre post : string) :
  Str.split_at c s = Some (pre, post) -> s = pre +:+ String c post.
Proof.
  revert pre. induction s as [|a s IH]; intros pre; [done|]. simpl.
  destruct (bool_decide_reflect (a = c)) as [->|_].
  - by intros [= <- <-].
  - destruct (Str.split_at c s) as [[pre' post']|]; [|done].
    intros [= <- <-]. rewrite str_app_cons. f_equal. by apply IH.
Qed.

(** The scan of RFC 3986 and the split of [urlsplit] find the same
    scheme. *)
Lemma after_scheme_split (s : string) :
  RFC3986.after_scheme s
  = match Str.split_at ":" s with
    | Some (pre, r) => if Str.forallb scheme_char pre then Some r else None
    | None => None
    end.
Proof.
  induction s as [|a s IH]; [reflexivity|].
  cbn [RFC3986.after_scheme Str.split_at].
  destruct (bool_decide (a = ":"%char)); [reflexivity|].
  rewrite IH.
  change (RFC3986.ALPHA a || RFC3986.DIGIT a || bool_decide (a = "+"%char)
          || bool_decide (a = "-"%char) || bool_decide (a = "."%char))
    with (scheme_char a).
  destruct (Str.split_at ":" s) as [[pre post]|];
    [|by destruct (scheme_char a)].
  cbn [Str.forallb]. by destruct (scheme_char a).
Qed.

Lemma alpha_scheme_char (a : ascii) :
  Str.is_ascii_alpha a = true -> scheme_char a = true.
Proof. unfold scheme_char. by intros ->. Qed.

Lemma alpha_not_colon (a : ascii) :
  Str.is_ascii_alpha a = true -> bool_decide (a = ":"%char) = false.
Proof.
  intros Ha. apply bool_decide_eq_false. intros ->. discriminate Ha.
Qed.

Lemma lower_app (s t : string) :
  Str.lower (s +:+ t) = Str.lower s +:+ Str.lower t.
Proof.
  induction s as [|a s IH]; [reflexivity|].
  rewrite str_app_cons. simpl. by rewrite IH.
Qed.

Lemma startswith_app_same (s t u : string) :
  Str.startswith (s +:+ t) (s +:+ u) = Str.startswith t u.
Proof.
  induction s as [|a s IH]; [reflexivity|].
  rewrite !str_app_cons. simpl. by rewrite bool_decide_eq_true_2, IH.
Qed.

Lemma lower_char_slash (a : ascii) :
  bool_decide ("/"%char = Str.lower_char a) = bool_decide ("/"%char = a).
Proof. destruct a as [[] [] [] [] [] [] [] []]; reflexivity. Qed.

Lemma lower_char_backslash (a : ascii) :
  bool_decide ("\"%char = Str.lower_char a) = bool_decide ("\"%char = a).
Proof. destruct a as [[] [] [] [] [] [] [] []]; reflexivity. Qed.

Lemma startswith_slash_lower (r : string) :
  Str.startswith "/" (Str.lower r) = Str.startswith "/" r.
Proof. destruct r as [|a r]; [reflexivity|]. simpl. by rewrite lower_char_slash. Qed.

Lemma startswith_slashes_lower (r : string) :
  Str.startswith "//" (Str.lower r) = Str.startswith "//" r.
Proof.
  destruct r as [|a [|b r]]; [reflexivity|simpl; by rewrite lower_char_slash|].
  simpl. by rewrite !lower_char_slash.
Qed.

Lemma startswith_backslash_lower (r : string) :
  Str.startswith "\" (Str.lower r) = Str.startswith "\" r.
Proof.
  destruct r as [|a r]; [reflexivity|]. simpl. by rewrite lower_char_backslash.
Qed.

(** The kind of join chosen for a plain parent: a URL join exactly for
    a scheme and a colon that are not followed as after a drive
    letter. *)
Lemma from_parsed_uri_plain (p : string) :
  plain_href p = true ->
  JoinType.from_parsed_uri (safe_urlparse p)
  = match RFC3986.hier_part p with
    | Some r => if drive_like r then JoinType.PATH else JoinType.URL
    | None => JoinType.PATH
    end.
Proof.
  intros Hp. unfold safe_urlparse, urlparse. cbv zeta.
  rewrite (clean_plain p Hp).
  destruct p as [|a s]; [reflexivity|].
  cbn [RFC3986.hier_part Str.split_at].
  change (RFC3986.ALPHA a) with (Str.is_ascii_alpha a).
  destruct (Str.is_ascii_alpha a) eqn:Ha.
  - rewrite (alpha_not_colon a Ha), after_scheme_split.
    destruct (Str.split_at ":" s) as [[pre r]|] eqn:Hsplit; [|reflexivity].
    cbn [Str.forallb]. rewrite Ha, (alpha_scheme_char a Ha). cbn [andb].
    destruct (Str.forallb scheme_char pre); [|reflexivity].
    cbn [scheme].
    rewrite (split_at_app _ _ _ _ Hsplit).
    change (Str.lower (String a (pre +:+ String ":" r)))
      with (Str.lower (String a pre +:+ String ":" r)).
    rewrite lower_app.
    change (Str.lower (String ":" r)) with (String ":" (Str.lower r)).
    replace (Str.lower (String a pre) +:+ ":\")
      with (Str.lower (String a pre) +:+ String ":" "\") by reflexivity.
    replace (Str.lower (String a pre) +:+ ":/")
      with (Str.lower (String a pre) +:+ String ":" "/") by reflexivity.
    replace (Str.lower (String a pre) +:+ "://")
      with (Str.lower (String a pre) +:+ String ":" "//") by reflexivity.
    rewrite !startswith_app_same.
    change (Str.startswith (String ":" ?x) (String ":" ?y))
      with (Str.startswith x y).
    rewrite startswith_backslash_lower, startswith_slash_lower,
      startswith_slashes_lower.
    rewrite bool_decide_eq_false_2 by discriminate. cbn [negb andb].
    fold (drive_like r). by destruct (drive_like r).
  - destruct (bool_decide (a = ":"%char)); [reflexivity|].
    destruct (Str.split_at ":" s) as [[pre r]|]; [|reflexivity].
    by rewrite Ha.
Qed.

(** On the Windows join, the three segments of a parent without a
    drive or a trailing separator. *)
Example file_url_on_windows :
  ItemInSubdirLayout.get_item_href ntpath.join (mkItem "x" [] "")
    "file:/tmp/cat"
  = "file:/tmp/cat\items\x.json".
Proof. reflexivity. Qed.

(** C3, refuted as stated.  ["file:/tmp/cat"] is a URL (scheme [file],
    RFC 8089 allows the single slash), but [safe_urlparse] takes a
    scheme followed by one slash for a drive letter and empties the
    scheme: the parent is joined with [os.path.join], whatever that is
    on the host, and on a Windows host the href gets backslashes. *)
Lemma C3_file_url_joined_as_path :
  RFC3986.is_url "file:/tmp/cat" = true
  /\ (forall os_path_join : list string -> string,
        ItemInSubdirLayout.get_item_href os_path_join (mkItem "x" [] "")
          "file:/tmp/cat"
        = os_path_join ["file:/tmp/cat"; "items"; "x.json"])
  /\ ItemInSubdirLayout.get_item_href ntpath.join (mkItem "x" [] "")
       "file:/tmp/cat"
     = "file:/tmp/cat\items\x.json"
  /\ ~ (forall (os_path_join : list string -> string) (item : Item)
               (parent_dir : string),
          RFC3986.is_url parent_dir = true ->
          ItemInSubdirLayout.get_item_href os_path_join item parent_dir
          = posixpath.join [parent_dir; "items"; item_id item +:+ ".json"]).
Proof.
  split; [reflexivity|]. split; [reflexivity|]. split; [reflexivity|].
  intros Hall.
  specialize (Hall ntpath.join (mkItem "x" [] "") "file:/tmp/cat" eq_refl).
  vm_compute in Hall. discriminate Hall.
Qed.

(** C3, amended.  For a plain parent href (printable ASCII, no
    brackets, no leading space):
    - without a scheme and a colon at its start, the segments are
      joined with the [os.path.join] of the host;
    - with a scheme and a colon followed by a backslash, or by a slash
      that is not doubled, likewise;
    - with a scheme and a colon followed by anything else, as in
      ["<scheme>://..."], the segments are joined with
      [posixpath.join], whatever the [os.path.join] of the host is.
    Parent ["https://example.org/cat"] and id ["x"] give
    ["https://example.org/cat/items/x.json"] on every host. *)
Theorem C3_get_item_href_join_semantics :
  forall (os_path_join : list string -> string) (item : Item)
         (parent_dir : string),
    (plain_href parent_dir = true ->
     ItemInSubdirLayout.get_item_href os_path_join item parent_dir
     = match RFC3986.hier_part parent_dir with
       | None =>
           os_path_join [parent_dir; "items"; item_id item +:+ ".json"]
       | Some r =>
           if Str.startswith "\" r
              || (Str.startswith "/" r && negb (Str.startswith "//" r))
           then os_path_join [parent_dir; "items"; item_id item +:+ ".json"]
           else posixpath.join [parent_dir; "items"; item_id item +:+ ".json"]
       end)
    /\ ItemInSubdirLayout.get_item_href os_path_join (mkItem "x" [] "")
         "https://example.org/cat"
       = "https://example.org/cat/items/x.json".
Proof.
  intros os_path_join item parent_dir. split; [|reflexivity].
  intros Hp. rewrite get_item_href_unfold, (from_parsed_uri_plain _ Hp).
  destruct (RFC3986.hier_part parent_dir) as [r|]; [|reflexivity].
  fold (drive_like r). by destruct (drive_like r).
Qed.

Lemma C3_get_item_href_join_semantics_witness :
  plain_href "https://example.org/cat" = true
  /\ ItemInSubdirLayout.get_item_href ntpath.join (mkItem "x" [] "")
       "https://example.org/cat"
     = posixpath.join ["https://example.org/cat"; "items"; "x" +:+ ".json"].
Proof.
  split; [reflexivity|].
  exact (proj1 (C3_get_item_href_join_semantics ntpath.join
                  (mkItem "x" [] "") "https://example.org/cat") eq_refl).
Defined.

(** ** The monad of script actions *)

Lemma bind_Return {A B} (m : M A) (k : A -> M B) w a w' :
  m w = (Return a, w') -> bind m k w = k a w'.
Proof. unfold bind. by intros ->. Qed.

Lemma bind_Raise {A B} (m : M A) (k : A -> M B) w e w' :
  m w = (Raise e, w') -> bind m k w = (Raise e, w').
Proof. unfold bind. by intros ->. Qed.

Lemma try_except_Return {A} (body : M A) handler w a w' :
  body w = (Return a, w') -> try_except body handler w = (Return a, w').
Proof. unfold try_except. by intros ->. Qed.

Lemma try_except_Exception {A} (body : M A) handler w e w' :
  body w = (Raise (Exception e), w') ->
  try_except body handler w = handler e w'.
Proof. unfold try_except. by intros ->. Qed.

Lemma try_except_SystemExit {A} (body : M A) handler w code w' :
  body w = (Raise (SystemExit code), w') ->
  try_except body handler w = (Raise (SystemExit code), w').
Proof. unfold try_except. by intros ->. Qed.

(** ** The attach loop *)

(** Unfolds the script combinators in the goal. *)
Ltac run_script :=
  cbv [attach_collection try_except bind Collection_from_file
       Catalog_from_file add_child save save_object validate_all log
       lift_read lift_write read_json print eprint ret raise sys_exit
       after_round printed STACTypeError].

Section BuilderFacts.
Context `{Library}.

Lemma attach_not_found output_dir catalog id w :
  fs w !! path_str (collection_path_of output_dir id) = None ->
  attach_collection output_dir catalog id w
  = (Return catalog,
     after_round w (path_str (collection_path_of output_dir id))
       (warning_not_found (collection_path_of output_dir id))).
Proof.
  intros Hf. run_script. simpl.
  by rewrite Hf.
Qed.

Lemma attach_unreadable output_dir catalog id w msg :
  fs w !! path_str (collection_path_of output_dir id)
    = Some (Unreadable msg) ->
  attach_collection output_dir catalog id w
  = (Return catalog,
     after_round w (path_str (collection_path_of output_dir id))
       (warning_not_processed (collection_path_of output_dir id)
          (OtherError msg))).
Proof.
  intros Hf. run_script. simpl.
  by rewrite Hf.
Qed.

Lemma attach_not_a_collection output_dir catalog id w d :
  fs w !! path_str (collection_path_of output_dir id) = Some (Json d) ->
  doc_type d <> COLLECTION ->
  attach_collection output_dir catalog id w
  = (Return catalog,
     after_round w (path_str (collection_path_of output_dir id))
       (warning_not_processed (collection_path_of output_dir id)
          (STACTypeError d "Collection"))).
Proof.
  intros Hf Ht. run_script. simpl.
  rewrite Hf. by destruct (doc_type d).
Qed.

Lemma attach_add_child_raises output_dir catalog id w d msg :
  fs w !! path_str (collection_path_of output_dir id) = Some (Json d) ->
  doc_type d = COLLECTION ->
  add_child_error catalog
    (from_dict d (path_str (collection_path_of output_dir id))) = Some msg ->
  attach_collection output_dir catalog id w
  = (Return catalog,
     after_round w (path_str (collection_path_of output_dir id))
       (warning_not_processed (collection_path_of output_dir id)
          (OtherError msg))).
Proof.
  intros Hf Ht He. run_script. simpl. rewrite Hf, Ht. simpl. by rewrite He.
Qed.

Lemma attach_attached output_dir catalog id w d :
  fs w !! path_str (collection_path_of output_dir id) = Some (Json d) ->
  doc_type d = COLLECTION ->
  add_child_error catalog
    (from_dict d (path_str (collection_path_of output_dir id))) = None ->
  attach_collection output_dir catalog id w
  = (Return
       (mkCatalog (cat_doc catalog)
          (cat_children catalog
           ++ [placed_child catalog
                 (from_dict d (path_str (collection_path_of output_dir id)))
                 (ItemInSubdirLayout.new os_path_join)])
          (cat_extent catalog) (cat_summaries catalog)
          (cat_license catalog)),
     after_round w (path_str (collection_path_of output_dir id))
       ("  + Read collection '" +:+ id +:+ "'")).
Proof.
  intros Hf Ht He. run_script. simpl. rewrite Hf, Ht. simpl. by rewrite He.
Qed.

End BuilderFacts.

Lemma printed_nothing w : printed w [] [] [] = w.
Proof. destruct w. unfold printed. simpl. by rewrite !app_nil_r. Qed.

Lemma printed_after_round w h line out evs :
  printed (after_round w h line) out [] evs
  = printed w (line :: out) [] (EvRead h :: evs).
Proof.
  unfold printed, after_round. simpl.
  by rewrite <- !(assoc_L (++)).
Qed.

Section LoopFacts.
Context `{Library}.

(** One round never raises: it opens the collection document of the
    name, prints one line, and leaves the catalog alone or appends
    the loaded collection to its children. *)
Lemma attach_collection_round output_dir catalog id w :
  exists catalog' line,
    attach_collection output_dir catalog id w
    = (Return catalog',
       after_round w (path_str (collection_path_of output_dir id)) line)
    /\ round_line output_dir (fs w) id line
    /\ cat_doc catalog' = cat_doc catalog
    /\ (cat_children catalog' = cat_children catalog
        \/ exists child, child_from output_dir (fs w) [id] child
             /\ cat_children catalog' = cat_children catalog ++ [child]).
Proof.
  unfold round_line. cbv zeta.
  destruct (fs w !! path_str (collection_path_of output_dir id))
    as [[msg|d]|] eqn:Hf.
  - eexists _, _. split; [by apply attach_unreadable|].
    split; [|by auto]. repeat split; congruence.
  - assert (Hdec : doc_type d = COLLECTION \/ doc_type d <> COLLECTION)
      by (destruct (doc_type d); auto).
    destruct Hdec as [Ht|Ht].
    + destruct (add_child_error catalog
                  (from_dict d (path_str (collection_path_of output_dir id))))
        as [msg|] eqn:He.
      * eexists _, _. split; [by eapply attach_add_child_raises|].
        split; [|by auto].
        repeat split; try congruence. intros d' _ _. right. by exists msg.
      * eexists _, _. split; [by eapply attach_attached|].
        split; [repeat split; try congruence; by left|].
        split; [done|]. right. eexists. split; [|done].
        exists id, d, catalog. split; [by apply list_elem_of_singleton|done].
    + eexists _, _. split; [by eapply attach_not_a_collection|].
      split; [|by auto]. repeat split; congruence.
  - eexists _, _. split; [by apply attach_not_found|].
    split; [|by auto]. repeat split; congruence.
Qed.

Lemma child_from_mono output_dir files ids ids' child :
  ids ⊆ ids' ->
  child_from output_dir files ids child ->
  child_from output_dir files ids' child.
Proof.
  intros Hsub (id & d & c & Hin & ?). exists id, d, c. split; [|done].
  by apply Hsub.
Qed.

(** The loop never raises: every name is tried, in the order of the
    list, and each prints its line. *)
Lemma attach_loop_total output_dir ids :
  forall catalog w,
  exists catalog' lines added,
    for_loop ids (attach_collection output_dir) catalog w
    = (Return catalog',
       printed w lines []
         (map (fun id => EvRead (path_str (collection_path_of output_dir id)))
              ids))
    /\ Forall2 (round_line output_dir (fs w)) ids lines
    /\ cat_doc catalog' = cat_doc catalog
    /\ cat_children catalog' = cat_children catalog ++ added
    /\ Forall (child_from output_dir (fs w) ids) added.
Proof.
  induction ids as [|id ids IH]; intros catalog w.
  - exists catalog, [], []. simpl. unfold ret.
    rewrite printed_nothing, app_nil_r. by repeat split.
  - destruct (attach_collection_round output_dir catalog id w)
      as (c1 & line & Hround & Hline & Hdoc & Hch).
    destruct (IH c1 (after_round w
                (path_str (collection_path_of output_dir id)) line))
      as (c2 & lines & added & Hloop & Hlines & Hdoc2 & Hch2 & Hadded).
    simpl in Hlines, Hadded.
    assert (Hmono : forall ch,
              child_from output_dir (fs w) ids ch ->
              child_from output_dir (fs w) (id :: ids) ch).
    { intros ch. apply child_from_mono. intros x Hx. by right. }
    assert (Hrun : for_loop (id :: ids) (attach_collection output_dir)
                     catalog w
                   = (Return c2,
                      printed w (line :: lines) []
                        (map (fun id => EvRead
                                (path_str (collection_path_of output_dir id)))
                             (id :: ids)))).
    { simpl. rewrite (bind_Return _ _ _ _ _ Hround), Hloop.
      by rewrite printed_after_round. }
    destruct Hch as [Hsame|(ch & Hfrom & Happ)].
    + exists c2, (line :: lines), added.
      split; [exact Hrun|]. split; [by constructor|].
      split; [congruence|]. split; [congruence|].
      eapply Forall_impl; [exact Hadded|exact Hmono].
    + exists c2, (line :: lines), (ch :: added).
      split; [exact Hrun|]. split; [by constructor|].
      split; [congruence|].
      split; [rewrite Hch2, Happ; by rewrite <- (assoc_L (++))|].
      constructor; [|eapply Forall_impl; [exact Hadded|exact Hmono]].
      eapply child_from_mono; [|exact Hfrom].
      intros x Hx. apply list_elem_of_singleton in Hx as ->. by left.
Qed.

End LoopFacts.

(** ** Saving and re-anchoring the root *)

Lemma filter_self_fmap (f : Link -> Link) (links : list Link) :
  (forall l, link_rel (f l) = link_rel l) ->
  filter (fun l => is_self l = true) (map f links)
  = map f (filter (fun l => is_self l = true) links).
Proof.
  intros Hf. induction links as [|l links IH]; [reflexivity|].
  simpl. rewrite !filter_cons.
  assert (Hl : is_self (f l) = is_self l) by (unfold is_self; by rewrite Hf).
  rewrite Hl. destruct (decide (is_self l = true)); simpl; by rewrite IH.
Qed.

Lemma filter_self_not_self (links : list Link) :
  filter (fun l => is_self l = true)
    (filter (fun l => is_self l = false) links) = [].
Proof.
  induction links as [|l links IH]; [reflexivity|].
  rewrite (filter_cons (fun l => is_self l = false)).
  destruct (decide (is_self l = false)) as [Hl|Hl]; [|exact IH].
  rewrite filter_cons, IH. destruct (decide (is_self l = true)); congruence.
Qed.

Lemma Doc_get_set_self_href (d : Doc) (h : string) :
  Doc_get_self_href (Doc_set_self_href d h) = Some h.
Proof.
  unfold Doc_get_self_href, Doc_set_self_href. simpl.
  by rewrite filter_app, filter_self_not_self.
Qed.

(** *** The links of a loaded object *)

Lemma is_root_not_self (l : Link) : is_root l = true -> is_self l = false.
Proof.
  unfold is_root, is_self. intros Hl%bool_decide_eq_true.
  apply bool_decide_eq_false. by rewrite Hl.
Qed.

Lemma filter_nonroot_keeps (P : Link -> bool) (links : list Link) :
  (forall l, P l = true -> is_root l = false) ->
  filter (fun l => P l = true) (filter (fun x => is_root x = false) links)
  = filter (fun l => P l = true) links.
Proof.
  intros HP. induction links as [|l links IH]; [reflexivity|].
  rewrite (filter_cons (fun x => is_root x = false)).
  destruct (decide (is_root l = false)) as [Hl|Hl].
  - rewrite !filter_cons, IH. reflexivity.
  - rewrite IH, filter_cons.
    destruct (decide (P l = true)) as [HPl|_]; [|reflexivity].
    destruct Hl. by apply HP.
Qed.

(** Loading neither adds nor removes a self link. *)
Lemma filter_self_loaded (links acc : list Link) :
  filter (fun l => is_self l = true) (fold_left add_loaded_link links acc)
  = filter (fun l => is_self l = true) acc.
Proof.
  revert acc. induction links as [|l links IH]; intros acc; [reflexivity|].
  simpl. rewrite IH. unfold add_loaded_link.
  assert (Hkeep : filter (fun l => is_self l = true)
                    (if is_root l
                     then filter (fun x => is_root x = false) acc else acc)
                  = filter (fun l => is_self l = true) acc).
  { destruct (is_root l); [|reflexivity].
    apply filter_nonroot_keeps. intros x Hx.
    destruct (is_root x) eqn:Hr; [|reflexivity].
    apply is_root_not_self in Hr. congruence. }
  destruct (is_self l) eqn:Hs; [exact Hkeep|].
  rewrite filter_app, Hkeep, filter_cons.
  destruct (decide (is_self l = true)); [congruence|].
  by rewrite filter_nil, app_nil_r.
Qed.

(** The links that are neither root nor self links are loaded as they
    are, in their order. *)
Lemma filter_loaded_links (P : Link -> bool) (links acc : list Link) :
  (forall l, P l = true -> is_root l = false /\ is_self l = false) ->
  filter (fun l => P l = true) (fold_left add_loaded_link links acc)
  = filter (fun l => P l = true) acc ++ filter (fun l => P l = true) links.
Proof.
  intros HP. revert acc.
  induction links as [|l links IH]; intros acc;
    [by rewrite filter_nil, app_nil_r|].
  simpl. rewrite IH. change (l :: links) with ([l] ++ links).
  rewrite (filter_app _ [l] links), (assoc_L (++)). f_equal.
  unfold add_loaded_link.
  assert (Hkeep : filter (fun l => P l = true)
                    (if is_root l
                     then filter (fun x => is_root x = false) acc else acc)
                  = filter (fun l => P l = true) acc).
  { destruct (is_root l); [|reflexivity].
    apply filter_nonroot_keeps. intros x Hx. by apply HP. }
  destruct (is_self l) eqn:Hs.
  - rewrite Hkeep, filter_cons, filter_nil.
    destruct (decide (P l = true)) as [HPl|_]; [|by rewrite app_nil_r].
    apply HP in HPl as [_ HPl]. congruence.
  - by rewrite filter_app, Hkeep.
Qed.

(** A loaded object has one root link: the last root link of the
    document, or the one of the constructor. *)
Lemma filter_root_loaded (links acc : list Link) :
  filter (fun l => is_root l = true) (fold_left add_loaded_link links acc)
  = match last (filter (fun l => is_root l = true) links) with
    | Some r => [r]
    | None => filter (fun l => is_root l = true) acc
    end.
Proof.
  revert acc. induction links as [|l links IH]; intros acc; [reflexivity|].
  simpl. rewrite IH, filter_cons. unfold add_loaded_link.
  destruct (decide (is_root l = true)) as [Hl|Hl].
  - rewrite Hl, (is_root_not_self l Hl).
    rewrite filter_app, filter_cons, filter_nil.
    destruct (decide (is_root l = true)); [|congruence].
    assert (Hnone : filter (fun l => is_root l = true)
                      (filter (fun x => is_root x = false) acc) = []).
    { clear. induction acc as [|x acc IH]; [reflexivity|].
      rewrite (filter_cons (fun x => is_root x = false)).
      destruct (decide (is_root x = false)) as [Hx|Hx]; [|exact IH].
      rewrite filter_cons, IH.
      destruct (decide (is_root x = true)); congruence. }
    rewrite Hnone. simpl app. rewrite last_cons.
    by destruct (last (filter (fun l => is_root l = true) links)).
  - apply not_true_is_false in Hl. rewrite Hl.
    assert (Hsame : forall xs : list Link,
              filter (fun l => is_root l = true)
                (if is_self l then xs else xs ++ [l])
              = filter (fun l => is_root l = true) xs).
    { intros xs. destruct (is_self l); [reflexivity|].
      rewrite filter_app, filter_cons, filter_nil.
      destruct (decide (is_root l = true)); [congruence|].
      by rewrite app_nil_r. }
    by rewrite Hsame.
Qed.

(** The links that [validate_all] follows are those of the document. *)
Lemma from_dict_followed (d : Doc) (h : string) (l : Link) :
  followed l = true ->
  l ∈ doc_links (from_dict d h) <-> l ∈ doc_links d.
Proof.
  intros Hl.
  assert (HP : forall x, followed x = true ->
                 is_root x = false /\ is_self x = false).
  { intros x. unfold followed, is_root, is_self.
    intros [Hx|Hx]%orb_true_iff; apply bool_decide_eq_true in Hx;
      rewrite Hx; by split. }
  pose proof (filter_loaded_links followed (doc_links d)
                [Link_root_self; mkLink "self" h] HP) as Hfilter.
  change (filter (fun l => followed l = true)
            [Link_root_self; mkLink "self" h]) with (@nil Link) in Hfilter.
  simpl app in Hfilter.
  split; intros Hin.
  - assert (Hin' : l ∈ filter (fun l => followed l = true) (doc_links d)).
    { rewrite <- Hfilter. by apply list_elem_of_filter. }
    by apply list_elem_of_filter in Hin' as [_ ?].
  - assert (Hin' : l ∈ filter (fun l => followed l = true)
                         (doc_links (from_dict d h))).
    { unfold from_dict. simpl doc_links. rewrite Hfilter.
      by apply list_elem_of_filter. }
    by apply list_elem_of_filter in Hin' as [_ ?].
Qed.

Lemma from_dict_self_href (d : Doc) (h : string) :
  Doc_get_self_href (from_dict d h) = Some h.
Proof.
  unfold Doc_get_self_href, from_dict. simpl.
  by rewrite filter_self_loaded.
Qed.

Lemma filter_not_self_fmap (f : Link -> Link) (links : list Link) :
  (forall l, link_rel (f l) = link_rel l) ->
  filter (fun l => is_self l = false) (map f links)
  = map f (filter (fun l => is_self l = false) links).
Proof.
  intros Hf. induction links as [|l links IH]; [reflexivity|].
  simpl. rewrite !filter_cons.
  assert (Hl : is_self (f l) = is_self l) by (unfold is_self; by rewrite Hf).
  rewrite Hl. destruct (decide (is_self l = false)); simpl; by rewrite IH.
Qed.

Lemma filter_not_self_not_root (links : list Link) :
  filter (fun l => is_self l = false)
    (filter (fun x => is_root x = false) links)
  = filter (fun x => is_root x = false)
      (filter (fun l => is_self l = false) links).
Proof.
  induction links as [|l links IH]; [reflexivity|].
  rewrite (filter_cons (fun x => is_root x = false) l),
    (filter_cons (fun l => is_self l = false) l).
  destruct (decide (is_root l = false)), (decide (is_self l = false));
    rewrite ?filter_cons; repeat case_decide; try congruence;
    by rewrite IH.
Qed.

(** Dropping the self link of a loaded object leaves [kept_links]. *)
Lemma filter_not_self_loaded (links acc : list Link) :
  filter (fun l => is_self l = false) (fold_left add_loaded_link links acc)
  = fold_left add_loaded_link links (filter (fun l => is_self l = false) acc).
Proof.
  revert acc. induction links as [|l links IH]; intros acc; [reflexivity|].
  simpl. rewrite IH. f_equal. unfold add_loaded_link.
  assert (Hfirst : filter (fun l => is_self l = false)
                     (if is_root l
                      then filter (fun x => is_root x = false) acc else acc)
                   = if is_root l
                     then filter (fun x => is_root x = false)
                            (filter (fun l => is_self l = false) acc)
                     else filter (fun l => is_self l = false) acc).
  { destruct (is_root l); [apply filter_not_self_not_root|reflexivity]. }
  destruct (is_self l) eqn:Hs; [exact Hfirst|].
  rewrite filter_app, Hfirst, filter_cons, filter_nil.
  by destruct (decide (is_self l = false)).
Qed.

Lemma kept_links_loaded (d : Doc) (h : string) :
  filter (fun l => is_self l = false) (doc_links (from_dict d h))
  = kept_links d.
Proof.
  unfold from_dict, kept_links. simpl doc_links.
  by rewrite filter_not_self_loaded.
Qed.

Lemma kept_links_not_self (d : Doc) :
  filter (fun l => is_self l = true) (kept_links d) = [].
Proof. unfold kept_links. by rewrite filter_self_loaded. Qed.

Lemma is_plain_link_spec (l : Link) :
  is_plain_link l = true -> is_root l = false /\ is_self l = false.
Proof.
  unfold is_plain_link. intros [Hr Hs]%andb_true_iff.
  by rewrite negb_true_iff in Hr, Hs.
Qed.

(** The kept links that are not root links are those of the
    document. *)
Lemma kept_links_plain (d : Doc) :
  filter (fun l => is_plain_link l = true) (kept_links d)
  = filter (fun l => is_plain_link l = true) (doc_links d).
Proof.
  unfold kept_links.
  by rewrite (filter_loaded_links is_plain_link _ _ is_plain_link_spec).
Qed.

(** One root link is kept. *)
Lemma kept_links_one_root (d : Doc) :
  length (filter (fun l => is_root l = true) (kept_links d)) = 1%nat.
Proof.
  unfold kept_links. rewrite filter_root_loaded.
  by destruct (last _).
Qed.

Lemma filter_fmap_rel (P : Link -> bool) (f : Link -> Link)
    (links : list Link) :
  (forall l, P (f l) = P l) ->
  filter (fun l => P l = true) (map f links)
  = map f (filter (fun l => P l = true) links).
Proof.
  intros Hf. induction links as [|l links IH]; [reflexivity|].
  simpl. rewrite !filter_cons, Hf.
  destruct (decide (P l = true)); simpl; by rewrite IH.
Qed.

Section AnchorFacts.
Context `{Library}.

(** Serialising keeps the self href: a self link is not one of the
    hierarchical links that [Link.get_href] rewrites. *)
Lemma to_dict_self_href (c : Catalog) (h : string) :
  Doc_get_self_href (to_dict (Catalog_set_self_href c h)) = Some h.
Proof.
  unfold Doc_get_self_href, to_dict, Catalog_set_self_href,
    Doc_set_self_href. simpl.
  rewrite filter_self_fmap by reflexivity.
  rewrite !filter_app, filter_self_not_self. simpl.
  reflexivity.
Qed.

(** The links of the written root are the kept links, each as
    [Link.get_href] writes it, and then the self link. *)
Lemma anchored_links (d : Doc) (h : string) :
  doc_links (anchored d h)
  = map (fun l => mkLink (link_rel l)
                    (Link_get_href
                       (Doc_set_self_href (from_dict d h) CATALOG_PUBLISHED_URL)
                       l))
        (kept_links d)
    ++ [mkLink "self" CATALOG_PUBLISHED_URL].
Proof.
  unfold anchored, to_dict, Catalog_set_self_href. simpl.
  rewrite app_nil_r, map_app. f_equal.
  by rewrite <- (kept_links_loaded d h).
Qed.

Lemma anchor_root_run (catalog_path : Path) (w : World) (d : Doc) :
  fs w !! path_str catalog_path = Some (Json d) ->
  doc_type d = CATALOG ->
  anchor_root catalog_path w
  = (Return tt,
     mkWorld
       (<[path_str catalog_path :=
            Json (to_dict
                    (Catalog_set_self_href
                       (mkCatalog (from_dict d (path_str catalog_path))
                          [] None None None)
                       CATALOG_PUBLISHED_URL))]> (fs w))
       (stdout w
        ++ ["Anchoring catalog by adding absolute self link: "
            +:+ CATALOG_PUBLISHED_URL;
            nl +:+ "Successfully saved RELATIVE PUBLISHED catalog to: "
            +:+ path_str catalog_path])
       (stderr w)
       (events w ++ [EvRead (path_str catalog_path);
                     EvWrite (path_str catalog_path)])).
Proof.
  intros Hf Ht. unfold anchor_root. run_script. simpl.
  rewrite Hf, Ht. simpl. by rewrite <- !(assoc_L (++)).
Qed.

Lemma validate_before_save_disabled (w : World) :
  validate_before_save (ret tt) w
  = (Return true,
     printed w
       [validating_line;
        "Validation successful!"] [] []).
Proof.
  unfold validate_before_save. run_script. simpl.
  by rewrite !app_nil_r, <- !(assoc_L (++)).
Qed.

Lemma validate_before_save_raises (validation : M unit) w e w2 :
  validation
    (printed w
       [validating_line]
       [] [])
  = (Raise (Exception e), w2) ->
  validate_before_save validation w
  = (Return false, printed w2 [] ["Validation failed: " +:+ str e] []).
Proof.
  unfold validate_before_save. run_script. simpl.
  rewrite !app_nil_r. by intros ->.
Qed.

Lemma assemble_catalog_total (output_dir : Path) (dirs : list string) w :
  exists catalog lines added,
    assemble_catalog output_dir dirs w
    = (Return catalog,
       printed w
         (["Creating STAC Catalog '" +:+ CATALOG_ID +:+ "'...";
           "Reading " +:+ pretty (length dirs)
           +:+ " child collections from disk..."] ++ lines) []
         (map (fun id => EvRead (path_str (collection_path_of output_dir id)))
              (sorted dirs)))
    /\ Forall2 (round_line output_dir (fs w)) (sorted dirs) lines
    /\ cat_children catalog = added
    /\ Forall (child_from output_dir (fs w) (sorted dirs)) added.
Proof.
  unfold assemble_catalog.
  set (c0 := Catalog_set_self_href _ _).
  set (w0 := printed w
               ["Creating STAC Catalog '" +:+ CATALOG_ID +:+ "'...";
                "Reading " +:+ pretty (length dirs)
                +:+ " child collections from disk..."] [] []).
  destruct (attach_loop_total output_dir (sorted dirs) c0 w0)
    as (c & lines & added & Hloop & Hlines & _ & Hch & Hadded).
  exists c, lines, added.
  split; [|by repeat split].
  unfold bind, print. simpl.
  change (mkWorld (fs w) ((stdout w ++ _) ++ _) (stderr w) (events w))
    with (mkWorld (fs w)
            ((stdout w ++ ["Creating STAC Catalog '" +:+ CATALOG_ID +:+ "'..."])
             ++ ["Reading " +:+ pretty (length dirs)
                 +:+ " child collections from disk..."])
            (stderr w) (events w)).
  replace (mkWorld (fs w) _ (stderr w) (events w)) with w0.
  - rewrite Hloop. unfold printed, w0. simpl.
    by rewrite !app_nil_r, <- !(assoc_L (++)).
  - unfold w0, printed. simpl. by rewrite !app_nil_r, <- !(assoc_L (++)).
Qed.

End AnchorFacts.

Section AnchoredRoot.
Context `{Library}.

(** The written root is the document it was read from, but for its
    links. *)
Lemma anchored_fields (d : Doc) (h : string) :
  doc_type (anchored d h) = doc_type d
  /\ doc_id (anchored d h) = doc_id d
  /\ doc_description (anchored d h) = doc_description d
  /\ doc_title (anchored d h) = doc_title d.
Proof. by repeat split. Qed.

Lemma anchored_self_links (d : Doc) (h : string) :
  filter (fun l => is_self l = true) (doc_links (anchored d h))
  = [mkLink "self" CATALOG_PUBLISHED_URL].
Proof.
  rewrite anchored_links, filter_app.
  rewrite (filter_fmap_rel is_self) by reflexivity.
  by rewrite kept_links_not_self.
Qed.

Lemma anchored_one_root (d : Doc) (h : string) :
  length (filter (fun l => is_root l = true) (doc_links (anchored d h)))
  = 1%nat.
Proof.
  rewrite anchored_links, filter_app.
  rewrite (filter_fmap_rel is_root) by reflexivity.
  rewrite length_app, length_map, kept_links_one_root. reflexivity.
Qed.

Lemma anchored_plain_links (d : Doc) (h : string) :
  map link_rel
    (filter (fun l => is_plain_link l = true) (doc_links (anchored d h)))
  = map link_rel (filter (fun l => is_plain_link l = true) (doc_links d)).
Proof.
  rewrite anchored_links, filter_app.
  rewrite (filter_fmap_rel is_plain_link) by reflexivity.
  rewrite kept_links_plain, map_app, map_map. simpl. by rewrite app_nil_r.
Qed.

Lemma anchored_keeps_link (d : Doc) (h : string) (l : Link) :
  l ∈ doc_links d ->
  is_self l = false ->
  link_rel l ∉ HIERARCHICAL_LINKS ->
  l ∈ doc_links (anchored d h).
Proof.
  intros Hl Hself Hrel.
  assert (Hplain : is_plain_link l = true).
  { unfold is_plain_link. rewrite Hself, andb_true_r.
    apply negb_true_iff, bool_decide_eq_false. intros Hroot.
    apply Hrel. rewrite Hroot. by left. }
  assert (Hkept : l ∈ kept_links d).
  { assert (Hin : l ∈ filter (fun l => is_plain_link l = true)
                        (kept_links d)).
    { rewrite kept_links_plain. by apply list_elem_of_filter. }
    by apply list_elem_of_filter in Hin as [_ ?]. }
  rewrite anchored_links. apply elem_of_app. left.
  apply list_elem_of_fmap. exists l. split; [|exact Hkept].
  unfold Link_get_href. rewrite bool_decide_eq_false_2 by done.
  by destruct l.
Qed.

End AnchoredRoot.

(** C1.  When the root document is at the catalog path and is its own
    root (each of its root links resolves to the catalog path), the
    re-anchor phase returns, and afterwards:
    - the one [from_file] and the one [save_object] of the phase were
      on the catalog path, and the documents are those of before with
      the root replaced;
    - the written root is the document that was read: it has the kind,
      identifier, description and title it had; its links that are
      neither root nor self links have the relations they had, in
      their order; a link that is neither a self link nor hierarchical
      is kept as it was; it has one root link;
    - its one self link is exactly the public URL;
    - the document at every other href is the one that was there
      before: a document other than the root whose links were all
      relative is unchanged, its links still relative. *)
Theorem C1_anchor_root_only_root_rewritten :
  forall `{Library} (catalog_path : Path) (w : World) (d : Doc),
    fs w !! path_str catalog_path = Some (Json d) ->
    doc_type d = CATALOG ->
    Forall (fun l =>
              link_rel l = "root" ->
              make_absolute_href (link_href l) (path_str catalog_path)
              = path_str catalog_path)
      (doc_links d) ->
    exists (w' : World) (root' : Doc),
      anchor_root catalog_path w = (Return tt, w')
      /\ fs w' = <[path_str catalog_path := Json root']> (fs w)
      /\ events w' = events w ++ [EvRead (path_str catalog_path);
                                  EvWrite (path_str catalog_path)]
      /\ doc_type root' = doc_type d
      /\ doc_id root' = doc_id d
      /\ doc_description root' = doc_description d
      /\ doc_title root' = doc_title d
      /\ map link_rel
           (filter (fun l => link_rel l <> "root" /\ link_rel l <> "self")
              (doc_links root'))
         = map link_rel
             (filter (fun l => link_rel l <> "root" /\ link_rel l <> "self")
                (doc_links d))
      /\ (forall l : Link,
            l ∈ doc_links d ->
            link_rel l <> "self" ->
            link_rel l ∉ HIERARCHICAL_LINKS ->
            l ∈ doc_links root')
      /\ length (filter (fun l => link_rel l = "root") (doc_links root'))
         = 1%nat
      /\ filter (fun l => link_rel l = "self") (doc_links root')
         = [mkLink "self" CATALOG_PUBLISHED_URL]
      /\ Doc_get_self_href root' = Some CATALOG_PUBLISHED_URL
      /\ (forall h : string,
            h <> path_str catalog_path -> fs w' !! h = fs w !! h)
      /\ (forall (h : string) (doc : Doc),
            h <> path_str catalog_path ->
            fs w !! h = Some (Json doc) ->
            links_relative doc ->
            exists doc', fs w' !! h = Some (Json doc')
                         /\ doc' = doc /\ links_relative doc').
Proof.
  intros L catalog_path w d Hf Ht _.
  eexists _, (anchored d (path_str catalog_path)).
  split; [by apply anchor_root_run|]. cbn [fs events].
  split; [reflexivity|]. split; [reflexivity|].
  destruct (anchored_fields d (path_str catalog_path))
    as (Hty & Hid & Hdesc & Htitle).
  do 4 (split; [done|]).
  split.
  { pose proof (anchored_plain_links d (path_str catalog_path)) as Hplain.
    assert (Hfilter : forall links : list Link,
              filter (fun l => link_rel l <> "root" /\ link_rel l <> "self")
                links
              = filter (fun l => is_plain_link l = true) links).
    { intros links. apply list_filter_iff. intros l.
      unfold is_plain_link, is_root, is_self.
      rewrite andb_true_iff, !negb_true_iff, !bool_decide_eq_false.
      done. }
    by rewrite !Hfilter. }
  split.
  { intros l Hl Hself Hrel. apply anchored_keeps_link; [done| |done].
    by apply bool_decide_eq_false. }
  split.
  { rewrite <- (anchored_one_root d (path_str catalog_path)).
    f_equal. apply list_filter_iff. intros l. unfold is_root.
    by rewrite bool_decide_eq_true. }
  split.
  { rewrite <- (anchored_self_links d (path_str catalog_path)).
    apply list_filter_iff. intros l. unfold is_self.
    by rewrite bool_decide_eq_true. }
  split; [apply to_dict_self_href|].
  split; [intros h Hh; by rewrite lookup_insert_ne|].
  intros h doc Hh Hdoc Hrel. exists doc.
  by rewrite lookup_insert_ne.
Qed.

Lemma C1_anchor_root_only_root_rewritten_witness :
  exists (w' : World) (root' : Doc),
    anchor_root (H := Posix.library) "release/v1/catalog.json"
      Posix.saved_world
    = (Return tt, w')
    /\ fs w' !! "release/v1/catalog.json" = Some (Json root')
    /\ doc_id root' = CATALOG_ID
    /\ map link_rel
         (filter (fun l => link_rel l <> "root" /\ link_rel l <> "self")
            (doc_links root'))
       = ["child"; "child"]
    /\ filter (fun l => link_rel l = "self") (doc_links root')
       = [mkLink "self" CATALOG_PUBLISHED_URL]
    /\ fs w' !! "release/v1/gctr/collection.json"
       = Some (Json (Posix.collection "gctr" ["t1"])).
Proof.
  assert (Hf : fs Posix.saved_world
               !! path_str (Library := Posix.library) "release/v1/catalog.json"
               = Some (Json Posix.root_doc)) by reflexivity.
  assert (Hroot : Forall (fun l =>
                            link_rel l = "root" ->
                            make_absolute_href (Library := Posix.library)
                              (link_href l) "release/v1/catalog.json"
                            = "release/v1/catalog.json")
                    (doc_links Posix.root_doc)).
  { repeat constructor; by intros. }
  destruct (C1_anchor_root_only_root_rewritten (H := Posix.library)
              "release/v1/catalog.json" Posix.saved_world Posix.root_doc
              Hf eq_refl Hroot)
    as (w' & root' & Hrun & Hfs & _ & _ & Hid & _ & _ & Hrels & _ & _
        & Hself & _ & Hframe & _).
  exists w', root'. split; [exact Hrun|].
  split; [rewrite Hfs; apply lookup_insert_eq|].
  split; [exact Hid|].
  split; [exact Hrels|].
  split; [exact Hself|].
  rewrite (Hframe "release/v1/gctr/collection.json") by discriminate.
  reflexivity.
Defined.

Section SaveFacts.
Context `{Library}.

(** The save step returns when the library's save succeeds and leaves
    a catalog document at the catalog path. *)
Lemma save_and_anchor_returns (catalog : Catalog) (catalog_path : Path)
    (w : World) (files' : gmap string File) (root : Doc) :
  Catalog_save catalog (fs w) = inr files' ->
  files' !! path_str catalog_path = Some (Json root) ->
  doc_type root = CATALOG ->
  exists w', save_and_anchor catalog catalog_path w = (Return tt, w').
Proof.
  intros Hsave Hroot Ht. unfold save_and_anchor.
  erewrite bind_Return by reflexivity.
  erewrite (bind_Return (save catalog)).
  2:{ unfold save. run_script. simpl. by rewrite Hsave. }
  erewrite anchor_root_run by (simpl; eassumption). by eexists.
Qed.

(** Entering the save step is visible in the log, whatever happens
    in it. *)
Lemma save_and_anchor_logged (catalog : Catalog) (catalog_path : Path)
    (w : World) :
  EvSave ∈ events (save_and_anchor catalog catalog_path w).2.
Proof.
  unfold save_and_anchor, anchor_root. run_script. simpl.
  destruct (Catalog_save catalog (fs w)) as [e|files']; simpl;
    [set_solver|].
  destruct (files' !! path_str catalog_path) as [[msg|d]|]; simpl;
    [set_solver| |set_solver].
  destruct (doc_type d); simpl; set_solver.
Qed.

(** The save step only adds to what was printed. *)
Lemma save_and_anchor_keeps_stdout (catalog : Catalog) (catalog_path : Path)
    (w : World) (line : string) :
  line ∈ stdout w ->
  line ∈ stdout (save_and_anchor catalog catalog_path w).2.
Proof.
  intros Hin. unfold save_and_anchor, anchor_root. run_script. simpl.
  destruct (Catalog_save catalog (fs w)) as [e|files']; simpl;
    [set_solver|].
  destruct (files' !! path_str catalog_path) as [[msg|d]|]; simpl;
    [set_solver| |set_solver].
  destruct (doc_type d); simpl; set_solver.
Qed.

End SaveFacts.

(** A child placed by [add_child] is the loaded document but for its
    links. *)
Lemma child_from_document `{Library} output_dir files ids child :
  child_from output_dir files ids child ->
  exists id d,
    id ∈ ids
    /\ files !! path_str (joinpath (joinpath output_dir id) "collection.json")
       = Some (Json d)
    /\ doc_type d = COLLECTION
    /\ doc_type child = COLLECTION
    /\ doc_id child = doc_id d.
Proof.
  intros (id & d & c & Hin & Hf & Ht & ->). exists id, d.
  split; [done|]. split; [exact Hf|]. split; [done|].
  unfold placed_child. by destruct (Catalog_get_self_href c).
Qed.

(** C4.  The names are tried in lexicographic order ([sorted] is a
    sorted permutation of the configured list), each by opening
    [<output-dir>/<name>/collection.json] once; the loop never raises,
    so every name is tried, and every name prints one line.  A name
    whose file is missing prints the warning that names the path; a
    name whose file does not load prints the warning with the error
    message of the loader; a name whose document is not a collection
    prints the warning with the message of [STACTypeError]; a name
    whose document is a collection prints that it was read, or the
    warning with the message of the error that the attachment raised.
    Every child of the assembled catalog is a collection document found
    under one of the names.  The builder then returns whenever the save
    leaves a catalog at the catalog path. *)
Theorem C4_attach_loop_skips_and_continues :
  forall `{Library} (output_dir : Path) (collection_dirs : list string)
         (w : World),
    StronglySorted String.le (sorted collection_dirs)
    /\ sorted collection_dirs ≡ₚ collection_dirs
    /\ exists (catalog : Catalog) (lines : list string),
         assemble_catalog output_dir collection_dirs w
         = (Return catalog,
            printed w
              (["Creating STAC Catalog '" +:+ CATALOG_ID +:+ "'...";
                "Reading " +:+ pretty (length collection_dirs)
                +:+ " child collections from disk..."] ++ lines) []
              (map (fun id =>
                      EvRead (path_str (joinpath (joinpath output_dir id)
                                          "collection.json")))
                   (sorted collection_dirs)))
         /\ Forall2
              (fun id line =>
                 let collection_path :=
                   path_str (joinpath (joinpath output_dir id)
                               "collection.json") in
                 (fs w !! collection_path = None ->
                  line = "  - Warning: Could not find " +:+ collection_path
                         +:+ ". Skipping.")
                 /\ (forall msg,
                       fs w !! collection_path = Some (Unreadable msg) ->
                       line = "  - Warning: Could not process "
                              +:+ collection_path
                              +:+ ". Error: " +:+ msg +:+ ". Skipping.")
                 /\ (forall d,
                       fs w !! collection_path = Some (Json d) ->
                       doc_type d <> COLLECTION ->
                       line = "  - Warning: Could not process "
                              +:+ collection_path
                              +:+ ". Error: "
                              +:+ ("JSON (id = " +:+ doc_id d
                                   +:+ ") does not represent a Collection instance.")
                              +:+ ". Skipping.")
                 /\ (forall d,
                       fs w !! collection_path = Some (Json d) ->
                       doc_type d = COLLECTION ->
                       line = "  + Read collection '" +:+ id +:+ "'"
                       \/ exists msg,
                            line = "  - Warning: Could not process "
                                   +:+ collection_path
                                   +:+ ". Error: " +:+ msg +:+ ". Skipping."))
              (sorted collection_dirs) lines
         /\ Forall
              (fun child =>
                 exists id d,
                   id ∈ collection_dirs
                   /\ fs w !! path_str (joinpath (joinpath output_dir id)
                                          "collection.json")
                      = Some (Json d)
                   /\ doc_type d = COLLECTION
                   /\ doc_type child = COLLECTION
                   /\ doc_id child = doc_id d)
              (cat_children catalog)
         /\ (forall (files' : gmap string File) (root : Doc),
               Catalog_save catalog (fs w) = inr files' ->
               files' !! path_str (joinpath output_dir "catalog.json")
               = Some (Json root) ->
               doc_type root = CATALOG ->
               exists w',
                 create_and_save_catalog output_dir collection_dirs w
                 = (Return tt, w')).
Proof.
  intros L output_dir dirs w.
  split; [apply StronglySorted_merge_sort; apply _|].
  split; [apply merge_sort_Permutation|].
  destruct (assemble_catalog_total output_dir dirs w)
    as (catalog & lines & added & Hasm & Hlines & Hch & Hadded).
  exists catalog, lines. split; [exact Hasm|].
  split; [exact Hlines|].
  split.
  - rewrite Hch. eapply Forall_impl; [exact Hadded|].
    intros child Hchild.
    destruct (child_from_document _ _ _ _ Hchild)
      as (id & d & Hin & Hrest).
    exists id, d. split; [|exact Hrest].
    by rewrite <- (merge_sort_Permutation String.le dirs).
  - intros files' root Hsave Hroot Ht.
    unfold create_and_save_catalog, create_and_save_catalog_with.
    rewrite (bind_Return _ _ _ _ _ Hasm).
    rewrite (bind_Return _ _ _ _ _ (validate_before_save_disabled _)).
    eapply save_and_anchor_returns; [|exact Hroot|exact Ht]. exact Hsave.
Qed.

Lemma C4_attach_loop_skips_and_continues_witness :
  exists w',
    create_and_save_catalog (H := Posix.library) "release/v1"
      ["gcts"; "gctr"; "coastal-zone"] Posix.release_world
    = (Return tt, w').
Proof.
  destruct (C4_attach_loop_skips_and_continues (H := Posix.library)
              "release/v1" ["gcts"; "gctr"; "coastal-zone"]
              Posix.release_world)
    as (_ & _ & catalog & lines & Hasm & _ & _ & Hreturns).
  vm_compute in Hasm. injection Hasm as Hcat _. subst catalog.
  eapply Hreturns; [vm_compute; reflexivity|vm_compute; reflexivity|].
  reflexivity.
Defined.

(** C10.  When the collection document loads and [add_child] raises,
    the round returns with the catalog as it was (the collection is not
    among its children), having printed the warning with the error
    message; the loop goes on with the remaining names and returns. *)
Theorem C10_attach_failure_absorbed :
  forall `{Library} (output_dir : Path) (catalog : Catalog)
         (collection_id : string) (remaining : list string) (w : World)
         (d : Doc) (msg : string),
    fs w !! path_str (collection_path_of output_dir collection_id)
    = Some (Json d) ->
    doc_type d = COLLECTION ->
    add_child_error catalog
      (from_dict d (path_str (collection_path_of output_dir collection_id)))
    = Some msg ->
    let w1 :=
      after_round w (path_str (collection_path_of output_dir collection_id))
        ("  - Warning: Could not process "
         +:+ path_str (collection_path_of output_dir collection_id)
         +:+ ". Error: " +:+ msg +:+ ". Skipping.") in
    attach_collection output_dir catalog collection_id w = (Return catalog, w1)
    /\ for_loop (collection_id :: remaining) (attach_collection output_dir)
         catalog w
       = for_loop remaining (attach_collection output_dir) catalog w1
    /\ exists catalog' lines added,
         for_loop (collection_id :: remaining) (attach_collection output_dir)
           catalog w
         = (Return catalog',
            printed w1 lines []
              (map (fun id =>
                      EvRead (path_str (collection_path_of output_dir id)))
                   remaining))
         /\ cat_children catalog' = cat_children catalog ++ added
         /\ Forall (child_from output_dir (fs w) remaining) added.
Proof.
  intros L output_dir catalog id remaining w d msg Hf Ht He w1.
  assert (Hround : attach_collection output_dir catalog id w
                   = (Return catalog, w1))
    by by eapply attach_add_child_raises.
  split; [exact Hround|].
  assert (Hstep : for_loop (id :: remaining) (attach_collection output_dir)
                    catalog w
                  = for_loop remaining (attach_collection output_dir)
                      catalog w1)
    by (simpl; by rewrite (bind_Return _ _ _ _ _ Hround)).
  split; [exact Hstep|].
  destruct (attach_loop_total output_dir remaining catalog w1)
    as (c & lines & added & Hloop & _ & _ & Hch & Hadded).
  exists c, lines, added. rewrite Hstep. by repeat split.
Qed.

Lemma C10_attach_failure_absorbed_witness :
  attach_collection (H := Posix.library) "release/v1"
    (mkCatalog Posix.root_doc [Posix.collection "gctr" []] None None None)
    "gctr" Posix.release_world
  = (Return
       (mkCatalog Posix.root_doc [Posix.collection "gctr" []] None None None),
     after_round Posix.release_world "release/v1/gctr/collection.json"
       "  - Warning: Could not process release/v1/gctr/collection.json. Error: duplicate child gctr. Skipping.").
Proof.
  assert (Hf : fs Posix.release_world
               !! path_str (Library := Posix.library)
                    (collection_path_of (H := Posix.library) "release/v1" "gctr")
               = Some (Json (Posix.collection "gctr" ["t1"])))
    by reflexivity.
  exact (proj1 (C10_attach_failure_absorbed (H := Posix.library) "release/v1"
                  (mkCatalog Posix.root_doc [Posix.collection "gctr" []]
                     None None None)
                  "gctr" [] Posix.release_world
                  (Posix.collection "gctr" ["t1"]) "duplicate child gctr"
                  Hf eq_refl eq_refl)).
Defined.

(** C6.  Whatever statement stands at line 147: the catalog is
    assembled, and if that statement raises an exception, the builder
    prints ["Validation failed: <error>"] on the error stream and
    returns at once.  The documents and the log of library calls are
    those of the moment the exception was raised: nothing is saved.
    The function returns normally, so the exit status of the script is
    0, the status of a run that saved the catalog. *)
Theorem C6_validation_failure_returns_early :
  forall `{Library} (validation : Catalog -> M unit) (output_dir : Path)
         (collection_dirs : list string) (w : World),
    exists (catalog : Catalog) (w1 : World),
      assemble_catalog output_dir collection_dirs w = (Return catalog, w1)
      /\ forall (e : PyException) (w2 : World),
           validation catalog (printed w1 [validating_line] [] [])
           = (Raise (Exception e), w2) ->
           exists w',
             create_and_save_catalog_with validation output_dir
               collection_dirs w
             = (Return tt, w')
             /\ stderr w' = stderr w2 ++ ["Validation failed: " +:+ str e]
             /\ stdout w' = stdout w2
             /\ fs w' = fs w2
             /\ events w' = events w2
             /\ exit_status
                  (create_and_save_catalog_with validation output_dir
                     collection_dirs w).1 = 0
             /\ exit_status (Return tt : Result unit) = 0.
Proof.
  intros L validation output_dir dirs w.
  destruct (assemble_catalog_total output_dir dirs w)
    as (catalog & lines & added & Hasm & _).
  eexists catalog, _. split; [exact Hasm|].
  intros e w2 Hraise.
  assert (Hrun : create_and_save_catalog_with validation output_dir dirs w
                 = (Return tt,
                    printed w2 [] ["Validation failed: " +:+ str e] [])).
  { unfold create_and_save_catalog_with.
    rewrite (bind_Return _ _ _ _ _ Hasm).
    by rewrite (bind_Return _ _ _ _ _
                  (validate_before_save_raises _ _ _ _ Hraise)). }
  eexists. split; [exact Hrun|]. rewrite Hrun. simpl.
  by rewrite !app_nil_r.
Qed.

Lemma C6_validation_failure_returns_early_witness :
  exists w',
    create_and_save_catalog_with (H := Posix.library)
      (fun _ => raise (OtherError "'id' is a required property"))
      "release/v1" ["gctr"] Posix.release_world
    = (Return tt, w')
    /\ fs w' = Posix.release_files
    /\ stderr w' = ["Validation failed: 'id' is a required property"].
Proof.
  destruct (C6_validation_failure_returns_early (H := Posix.library)
              (fun _ => raise (OtherError "'id' is a required property"))
              "release/v1" ["gctr"] Posix.release_world)
    as (catalog & w1 & Hasm & Hfail).
  destruct (Hfail (OtherError "'id' is a required property")
              (printed w1 [validating_line] [] []) eq_refl)
    as (w' & Hrun & Herr & _ & Hfs & _).
  exists w'. split; [exact Hrun|].
  vm_compute in Hasm. injection Hasm as _ Hw1. subst w1.
  split; [rewrite Hfs; reflexivity|]. rewrite Herr. reflexivity.
Defined.

(** C7.  With line 147 commented out, for every input: the catalog is
    assembled, the validation block prints ["Validation successful!"],
    prints nothing on the error stream and goes on; the builder
    continues with the save step on the assembled catalog, which shows
    in the log of library calls.  No schema is consulted on the way:
    this holds for every schema engine and every assembled tree. *)
Theorem C7_validation_failure_unreachable :
  forall `{Library} (output_dir : Path) (collection_dirs : list string)
         (w : World),
    exists (catalog : Catalog) (w1 : World),
      assemble_catalog output_dir collection_dirs w = (Return catalog, w1)
      /\ validate_before_save (ret tt) w1
         = (Return true,
            printed w1 [validating_line; "Validation successful!"] [] [])
      /\ create_and_save_catalog output_dir collection_dirs w
         = save_and_anchor catalog (joinpath output_dir "catalog.json")
             (printed w1 [validating_line; "Validation successful!"] [] [])
      /\ EvSave ∈ events (create_and_save_catalog output_dir collection_dirs w).2
      /\ "Validation successful!"
         ∈ stdout (create_and_save_catalog output_dir collection_dirs w).2.
Proof.
  intros L output_dir dirs w.
  destruct (assemble_catalog_total output_dir dirs w)
    as (catalog & lines & added & Hasm & _).
  eexists catalog, _. split; [exact Hasm|].
  split; [apply validate_before_save_disabled|].
  assert (Hrun : create_and_save_catalog output_dir dirs w
                 = save_and_anchor catalog (joinpath output_dir "catalog.json")
                     (printed
                        (printed w
                           (["Creating STAC Catalog '" +:+ CATALOG_ID +:+ "'...";
                             "Reading " +:+ pretty (length dirs)
                             +:+ " child collections from disk..."] ++ lines)
                           []
                           (map (fun id => EvRead
                                   (path_str (collection_path_of output_dir id)))
                                (sorted dirs)))
                        [validating_line; "Validation successful!"] [] [])).
  { unfold create_and_save_catalog, create_and_save_catalog_with.
    rewrite (bind_Return _ _ _ _ _ Hasm).
    by rewrite (bind_Return _ _ _ _ _ (validate_before_save_disabled _)). }
  split; [exact Hrun|]. rewrite Hrun.
  split; [apply save_and_anchor_logged|].
  apply save_and_anchor_keeps_stdout. simpl. set_solver.
Qed.

(** ** The validator *)

Lemma for_each_ok {A} (xs : list A) (f : A -> PyException + unit) :
  for_each xs f = inr tt <-> Forall (fun x => f x = inr tt) xs.
Proof.
  induction xs as [|x xs IH]; simpl.
  - split; [constructor|done].
  - destruct (f x) as [e|[]] eqn:Hx.
    + split; [done|]. intros Hall. inversion Hall; congruence.
    + rewrite IH. split; [by constructor|]. intros Hall. by inversion Hall.
Qed.

Section ValidatorFacts.
Context `{Library}.

(** The walk of [validate_all] returns exactly on the valid trees. *)
Lemma validate_all_rec_ok (files : gmap string File) (fuel : nat) :
  forall (h : string) (d : Doc),
    validate_all_rec fuel files h d = inr tt <-> tree_valid fuel files h d.
Proof.
  induction fuel as [|n IH]; intros h d; simpl; [done|].
  destruct (schema_error d) as [msg|]; [split; [done|by intros [? _]]|].
  assert (Hwalk :
    for_each (filter (fun l => followed l = true) (doc_links d))
      (fun l =>
         match read_json files (make_absolute_href (link_href l) h) with
         | inl e => inl e
         | inr d' =>
             validate_all_rec n files (make_absolute_href (link_href l) h) d'
         end) = inr tt
    <-> (forall l : Link,
           l ∈ doc_links d -> followed l = true ->
           exists d' : Doc,
             files !! make_absolute_href (link_href l) h = Some (Json d')
             /\ tree_valid n files (make_absolute_href (link_href l) h) d')).
  { rewrite for_each_ok, Forall_forall. setoid_rewrite list_elem_of_filter.
    split.
    - intros Hall l Hl Hfol. specialize (Hall l (conj Hfol Hl)).
      unfold read_json in Hall.
      destruct (files !! make_absolute_href (link_href l) h)
        as [[msg|d']|]; [done| |done].
      exists d'. split; [done|]. by apply IH.
    - intros Hall l [Hfol Hl]. destruct (Hall l Hl Hfol) as (d' & Hd' & Hv).
      unfold read_json. rewrite Hd'. by apply IH. }
  destruct (doc_type d) eqn:Ht.
  - rewrite Hwalk. split; [by split|]. intros [_ Hv]. by apply Hv.
  - rewrite Hwalk. split; [by split|]. intros [_ Hv]. by apply Hv.
  - split; [by split|done].
Qed.

Lemma is_help_flag_optional (a : string) :
  argparse.is_optional a = false -> argparse.is_help_flag a = false.
Proof.
  unfold argparse.is_help_flag. intros Ha.
  destruct (bool_decide_reflect (a = "-h")) as [->|_]; [done|].
  destruct (bool_decide_reflect (a = "--help")) as [->|_]; done.
Qed.

Lemma parse_args_plain (argv : list string) :
  Forall (fun a => argparse.is_optional a = false) argv ->
  existsb argparse.is_help_flag argv = false
  /\ filter (fun a => argparse.is_optional a = false) argv = argv
  /\ filter (fun a => argparse.is_optional a = true) argv = [].
Proof.
  induction 1 as [|a argv Ha _ (IH1 & IH2 & IH3)]; [done|].
  simpl. rewrite (is_help_flag_optional a Ha), IH1.
  rewrite !filter_cons, IH2, IH3.
  destruct (decide (argparse.is_optional a = false)); [|done].
  destruct (decide (argparse.is_optional a = true)); [congruence|done].
Qed.

(** One plain argument is the catalog path. *)
Lemma parse_args_one (catalog_path : string) (w : World) :
  argparse.is_optional catalog_path = false ->
  argparse.parse_args [catalog_path] w = (Return catalog_path, w).
Proof.
  intros Ha. unfold argparse.parse_args.
  destruct (parse_args_plain [catalog_path]) as (-> & -> & ->);
    [by constructor|done].
Qed.

Lemma main_load_fails (catalog_path : string) (w : World) e :
  argparse.is_optional catalog_path = false ->
  read_json (fs w) catalog_path = inl e ->
  main [catalog_path] w
  = (Raise (SystemExit 1),
     printed w ["Attempting to read catalog from: " +:+ catalog_path]
       (failure_lines e) [EvRead catalog_path]).
Proof.
  intros Ha He. unfold main.
  rewrite (bind_Return _ _ _ _ _ (parse_args_one _ _ Ha)).
  cbv [try_except bind Catalog_from_file log lift_read print eprint ret
       raise sys_exit printed failure_lines].
  simpl. rewrite He. simpl.
  by rewrite <- !(assoc_L (++)).
Qed.

Lemma main_not_a_catalog (catalog_path : string) (w : World) d :
  argparse.is_optional catalog_path = false ->
  fs w !! catalog_path = Some (Json d) ->
  doc_type d <> CATALOG ->
  main [catalog_path] w
  = (Raise (SystemExit 1),
     printed w ["Attempting to read catalog from: " +:+ catalog_path]
       (failure_lines
          (STACTypeError d "Catalog"))
       [EvRead catalog_path]).
Proof.
  intros Ha Hf Ht. unfold main.
  rewrite (bind_Return _ _ _ _ _ (parse_args_one _ _ Ha)).
  run_script. simpl. rewrite Hf. simpl.
  destruct (doc_type d); [done|..]; simpl; by rewrite <- !(assoc_L (++)).
Qed.

Lemma main_validated (catalog_path : string) (w : World) d
    (r : PyException + unit) :
  argparse.is_optional catalog_path = false ->
  fs w !! catalog_path = Some (Json d) ->
  doc_type d = CATALOG ->
  validate_all_rec recursion_limit (fs w) catalog_path
    (from_dict d catalog_path) = r ->
  main [catalog_path] w
  = match r with
    | inr _ =>
        (Raise (SystemExit 0),
         printed w
           (read_lines catalog_path (doc_id d)
            ++ [nl +:+ "Validation successful!";
                "The STAC catalog and all its children are valid."])
           [] [EvRead catalog_path; EvValidateAll])
    | inl e =>
        (Raise (SystemExit 1),
         printed w (read_lines catalog_path (doc_id d)) (failure_lines e)
           [EvRead catalog_path; EvValidateAll])
    end.
Proof.
  intros Ha Hf Ht Hr. unfold main.
  rewrite (bind_Return _ _ _ _ _ (parse_args_one _ _ Ha)).
  run_script. simpl. rewrite Hf, Ht. simpl.
  unfold Catalog_get_self_href. simpl cat_doc.
  rewrite from_dict_self_href. simpl default. rewrite Hr.
  destruct r as [e|[]]; simpl; by rewrite ?app_nil_r, <- !(assoc_L (++)).
Qed.

End ValidatorFacts.

(** C5.  For a catalog path given as the one argument:
    - if the root document loads as a catalog and its tree (every child
      and item link, resolved transitively) is schema-valid, [main]
      prints the success message and exits with status 0, with nothing
      on the error stream;
    - in every other case (the root does not load, or something in the
      tree does not load or is not valid) it prints ["Validation
      failed."] and the error on the error stream and exits with
      status 1, without the success message;
    - in particular so when the root has a child link to a file that
      does not exist. *)
Theorem C5_validator_exit_status :
  forall `{Library} (catalog_path : string) (w : World),
    argparse.is_optional catalog_path = false ->
    (forall d : Doc,
       fs w !! catalog_path = Some (Json d) ->
       doc_type d = CATALOG ->
       tree_valid recursion_limit (fs w) catalog_path
         (from_dict d catalog_path) ->
       main [catalog_path] w
       = (Raise (SystemExit 0),
          printed w
            (read_lines catalog_path (doc_id d)
             ++ [nl +:+ "Validation successful!";
                 "The STAC catalog and all its children are valid."])
            [] [EvRead catalog_path; EvValidateAll]))
    /\ (~ (exists d : Doc,
             fs w !! catalog_path = Some (Json d)
             /\ doc_type d = CATALOG
             /\ tree_valid recursion_limit (fs w) catalog_path
                  (from_dict d catalog_path)) ->
        exists (e : PyException) (out : list string) (evs : list IOEvent),
          main [catalog_path] w
          = (Raise (SystemExit 1),
             printed w out [nl +:+ "Validation failed."; "Error: " +:+ str e]
               evs)
          /\ nl +:+ "Validation successful!" ∉ out)
    /\ (forall (d : Doc) (l : Link),
          fs w !! catalog_path = Some (Json d) ->
          l ∈ doc_links d ->
          link_rel l = "child" ->
          fs w !! make_absolute_href (link_href l) catalog_path = None ->
          exists (e : PyException) (out : list string) (evs : list IOEvent),
            main [catalog_path] w
            = (Raise (SystemExit 1),
               printed w out
                 [nl +:+ "Validation failed."; "Error: " +:+ str e] evs)).
Proof.
  intros L catalog_path w Ha.
  assert (Hinvalid :
    ~ (exists d : Doc,
         fs w !! catalog_path = Some (Json d)
         /\ doc_type d = CATALOG
         /\ tree_valid recursion_limit (fs w) catalog_path
              (from_dict d catalog_path)) ->
    exists (e : PyException) (out : list string) (evs : list IOEvent),
      main [catalog_path] w
      = (Raise (SystemExit 1),
         printed w out [nl +:+ "Validation failed."; "Error: " +:+ str e] evs)
      /\ nl +:+ "Validation successful!" ∉ out).
  { intros Hno.
    assert (Hnot : forall a b : string,
              nl +:+ "Validation successful!"
              ∉ read_lines a b) by (intros a b; unfold read_lines; set_solver).
    destruct (fs w !! catalog_path) as [[msg|d]|] eqn:Hf.
    - eexists _, _, _. split.
      + apply main_load_fails; [done|]. unfold read_json. by rewrite Hf.
      + set_solver.
    - assert (Hdec : doc_type d = CATALOG \/ doc_type d <> CATALOG)
        by (destruct (doc_type d); auto).
      destruct Hdec as [Ht|Ht].
      + destruct (validate_all_rec recursion_limit (fs w) catalog_path
                    (from_dict d catalog_path)) as [e|[]] eqn:Hv.
        * eexists e, _, _. split; [|apply Hnot].
          by rewrite (main_validated _ _ _ _ Ha Hf Ht Hv).
        * destruct Hno. exists d. split; [done|]. split; [done|].
          by apply validate_all_rec_ok.
      + eexists _, _, _. split; [by apply main_not_a_catalog|]. set_solver.
    - eexists _, _, _. split.
      + apply main_load_fails; [done|]. unfold read_json. by rewrite Hf.
      + set_solver. }
  split; [|split; [exact Hinvalid|]].
  - intros d Hf Ht Hv. apply validate_all_rec_ok in Hv.
    by rewrite (main_validated _ _ _ _ Ha Hf Ht Hv).
  - intros d l Hf Hl Hrel Hmissing.
    destruct Hinvalid as (e & out & evs & Hrun & _); [|by eauto].
    intros (d' & Hf' & Ht & Hv). rewrite Hf in Hf'. injection Hf' as <-.
    destruct recursion_limit as [|n]; [done|].
    destruct Hv as [_ Hv].
    assert (Hkind : doc_type (from_dict d catalog_path) <> ITEM)
      by (simpl; by rewrite Ht).
    assert (Hfol : followed l = true) by (unfold followed; by rewrite Hrel).
    destruct (Hv Hkind l) as (d' & Hd' & _).
    + by apply from_dict_followed.
    + exact Hfol.
    + congruence.
Qed.

Lemma C5_validator_exit_status_witness :
  main (H := Posix.library) ["release/v1/catalog.json"] Posix.saved_world
  = (Raise (SystemExit 0),
     printed Posix.saved_world
       (read_lines "release/v1/catalog.json" CATALOG_ID
        ++ [nl +:+ "Validation successful!";
            "The STAC catalog and all its children are valid."])
       [] [EvRead "release/v1/catalog.json"; EvValidateAll])
  /\ exists (e : PyException) (out : list string) (evs : list IOEvent),
       main (H := Posix.library) ["release/v1/catalog.json"]
         Posix.dangling_world
       = (Raise (SystemExit 1),
          printed Posix.dangling_world out
            [nl +:+ "Validation failed."; "Error: " +:+ str e] evs).
Proof.
  split.
  - assert (Hf : fs Posix.saved_world !! "release/v1/catalog.json"
                 = Some (Json Posix.root_doc)) by reflexivity.
    assert (Hv : tree_valid (H := Posix.library)
                   (recursion_limit (Library := Posix.library))
                   (fs Posix.saved_world) "release/v1/catalog.json"
                   (from_dict Posix.root_doc "release/v1/catalog.json"))
      by (apply validate_all_rec_ok; vm_compute; reflexivity).
    exact (proj1 (C5_validator_exit_status (H := Posix.library)
                    "release/v1/catalog.json" Posix.saved_world eq_refl)
             Posix.root_doc Hf eq_refl Hv).
  - assert (Hf : fs Posix.dangling_world !! "release/v1/catalog.json"
                 = Some (Json Posix.dangling_root_doc)) by reflexivity.
    assert (Hl : mkLink "child" "./gcts/collection.json"
                 ∈ doc_links Posix.dangling_root_doc)
      by (vm_compute; set_solver).
    assert (Hmissing :
              fs Posix.dangling_world
              !! make_absolute_href (Library := Posix.library)
                   (link_href (mkLink "child" "./gcts/collection.json"))
                   "release/v1/catalog.json" = None)
      by reflexivity.
    exact (proj2 (proj2 (C5_validator_exit_status (H := Posix.library)
                           "release/v1/catalog.json" Posix.dangling_world
                           eq_refl))
             Posix.dangling_root_doc
             (mkLink "child" "./gcts/collection.json") Hf Hl eq_refl Hmissing).
Defined.

(** C9.  When [main] is run with no argument, or with several
    arguments of which none is an option, [parse_args] ends the process
    with exit status 2 after printing the usage line and an error
    message on the error stream.  Nothing was printed on the output
    stream and no document was opened or validated: the [try] block,
    and with it the exit with status 1, is never entered.  With no
    argument the message says that [catalog_path] is required. *)
Theorem C9_usage_error_exit_status :
  forall `{Library} (argv : list string) (w : World),
    Forall (fun a => argparse.is_optional a = false) argv ->
    length argv <> 1%nat ->
    exists message : string,
      main argv w
      = (Raise (SystemExit 2),
         printed w []
           [argparse.usage; argparse.prog +:+ ": error: " +:+ message] [])
      /\ exit_status (main argv w).1 = 2
      /\ events (main argv w).2 = events w
      /\ (argv = [] ->
          message = "the following arguments are required: catalog_path").
Proof.
  intros L argv w Hplain Hlen.
  destruct (parse_args_plain argv Hplain) as (Hhelp & Hpos & Hopt).
  assert (Hrun : forall message,
            argparse.parse_args argv w
            = (Raise (SystemExit 2),
               printed w []
                 [argparse.usage; argparse.prog +:+ ": error: " +:+ message]
                 []) ->
            main argv w
            = (Raise (SystemExit 2),
               printed w []
                 [argparse.usage; argparse.prog +:+ ": error: " +:+ message]
                 [])).
  { intros message Hparse. unfold main.
    by rewrite (bind_Raise _ _ _ _ _ Hparse). }
  assert (Herror : forall message,
            argparse.error (A := string) message w
            = (Raise (SystemExit 2),
               printed w []
                 [argparse.usage; argparse.prog +:+ ": error: " +:+ message]
                 [])).
  { intros message. unfold argparse.error. run_script. simpl.
    by rewrite !app_nil_r, <- !(assoc_L (++)). }
  assert (Hmain : exists message,
            argparse.parse_args argv w
            = (Raise (SystemExit 2),
               printed w []
                 [argparse.usage; argparse.prog +:+ ": error: " +:+ message]
                 [])
            /\ (argv = [] ->
                message = "the following arguments are required: catalog_path")).
  { destruct argv as [|a [|b extras]]; [|done|].
    - eexists. split; [|done].
      unfold argparse.parse_args. simpl. apply Herror.
    - eexists. split; [|intros [=]].
      unfold argparse.parse_args. rewrite Hhelp, Hpos, Hopt. simpl.
      apply Herror. }
  destruct Hmain as (message & Hparse & Hrequired).
  exists message. rewrite (Hrun message Hparse). simpl.
  by rewrite app_nil_r.
Qed.

Lemma C9_usage_error_exit_status_witness :
  (exists message : string,
     main (H := Posix.library) [] Posix.saved_world
     = (Raise (SystemExit 2),
        printed Posix.saved_world []
          [argparse.usage; argparse.prog +:+ ": error: " +:+ message] []))
  /\ (exists message : string,
        main (H := Posix.library)
          ["release/v1/catalog.json"; "release/v2/catalog.json"]
          Posix.saved_world
        = (Raise (SystemExit 2),
           printed Posix.saved_world []
             [argparse.usage; argparse.prog +:+ ": error: " +:+ message] [])).
Proof.
  split.
  - destruct (C9_usage_error_exit_status (H := Posix.library) []
                Posix.saved_world) as (message & Hrun & _);
      [constructor|simpl; lia|].
    by exists message.
  - destruct (C9_usage_error_exit_status (H := Posix.library)
                ["release/v1/catalog.json"; "release/v2/catalog.json"]
                Posix.saved_world) as (message & Hrun & _);
      [by repeat constructor|simpl; lia|].
    by exists message.
Defined.

(** ** Runs on the reference platform *)

Example join_trailing_separator :
  posixpath.join ["foo/"; "items"; "x.json"] = "foo/items/x.json".
Proof. reflexivity. Qed.

Example join_empty_parent :
  posixpath.join [""; "items"; "x.json"] = "items/x.json".
Proof. reflexivity. Qed.

(** An absolute segment restarts the join: this is why the explicit
    form of the item href is stated for identifiers that do not begin
    with [/]. *)
Example join_absolute_segment :
  posixpath.join ["foo"; "items"; "/bar.json"] = "/bar.json".
Proof. reflexivity. Qed.

Example drive_letter_is_a_path :
  JoinType.from_parsed_uri (safe_urlparse "C:/data/stac") = JoinType.PATH.
Proof. reflexivity. Qed.

Example bucket_is_a_url :
  JoinType.from_parsed_uri (safe_urlparse "s3://bucket/stac") = JoinType.URL.
Proof. reflexivity. Qed.

Example sorted_collection_dirs :
  sorted COLLECTION_DIRS
  = ["coastal-grid"; "coastal-zone"; "deltares-delta-dtm"; "gctr"; "gcts";
     "global-coastal-typology"; "overture-buildings"; "s2-l2a-composite";
     "shoreline-projections"; "shoreline-projections-edito";
     "shorelinemonitor-series"; "shorelinemonitor-shorelines"].
Proof. vm_compute. reflexivity. Qed.

(** The builder on a release directory without [gcts]: it returns, the
    missing collection is tried after [gctr] and is reported. *)
Example builder_skips_missing_collection :
  let outcome := create_and_save_catalog (H := Posix.library) "release/v1"
               ["gcts"; "gctr"] Posix.release_world in
  outcome.1 = Return tt
  /\ events outcome.2
     = [EvRead "release/v1/gctr/collection.json";
        EvRead "release/v1/gcts/collection.json"; EvSave;
        EvRead "release/v1/catalog.json"; EvWrite "release/v1/catalog.json"]
  /\ "  - Warning: Could not find release/v1/gcts/collection.json. Skipping."
     ∈ stdout outcome.2
  /\ stderr outcome.2 = [].
Proof.
  vm_compute. split; [reflexivity|]. split; [reflexivity|].
  split; [|reflexivity]. do 3 right. left.
Qed.

(** The validator accepts what the builder wrote. *)
Example validator_accepts_built_catalog :
  (main (H := Posix.library) ["release/v1/catalog.json"]
     (create_and_save_catalog (H := Posix.library) "release/v1"
        ["gcts"; "gctr"] Posix.release_world).2).1
  = Raise (SystemExit 0).
Proof. vm_compute. reflexivity. Qed.

Example validator_rejects_dangling_child :
  let outcome := main (H := Posix.library) ["release/v1/catalog.json"]
               Posix.dangling_world in
  outcome.1 = Raise (SystemExit 1)
  /\ "Error: [Errno 2] No such file or directory: 'release/v1/gcts/collection.json'"
     ∈ stderr outcome.2.
Proof. vm_compute. split; [reflexivity|]. right. left. Qed.

(** The help option ends the run with status 0, before the [try]
    block. *)
Example validator_help :
  let outcome := main (H := Posix.library) ["-h"] Posix.saved_world in
  outcome.1 = Raise (SystemExit 0) /\ events outcome.2 = [] /\ stderr outcome.2 = [].
Proof. vm_compute. by repeat split. Qed.

(** * Further properties *)

(** ** The item href *)

Lemma str_app_inv_tail (s s' t : string) : s +:+ t = s' +:+ t -> s = s'.
Proof.
  revert s'. induction s as [|a s IH]; intros [|a' s'] E.
  - reflexivity.
  - apply (f_equal String.length) in E.
    change ("" +:+ t) with t in E. rewrite str_app_cons in E.
    simpl in E. rewrite str_length_app in E. lia.
  - apply (f_equal String.length) in E.
    change ("" +:+ t) with t in E. rewrite str_app_cons in E.
    simpl in E. rewrite str_length_app in E. lia.
  - rewrite !str_app_cons in E. injection E as -> E. f_equal. by apply IH.
Qed.

(** The directory prefix that [posixpath.join] puts before a relative
    name. *)
Lemma join_relative_name (parent_dir name : string) :
  Str.startswith_char "/" name = false ->
  posixpath.join [parent_dir; name]
  = (if bool_decide (parent_dir = "") || Str.endswith_char "/" parent_dir
     then parent_dir else parent_dir +:+ "/") +:+ name.
Proof. intros Hn. unfold posixpath.join. simpl. by apply join_step_relative. Qed.

Lemma get_item_href_absolute (item : Item) (parent_dir : string) :
  Str.startswith_char "/" (item_id item) = true ->
  ItemInSubdirLayout.get_item_href posixpath.join item parent_dir
  = item_id item +:+ ".json".
Proof.
  intros Hid.
  rewrite get_item_href_posix. unfold posixpath.join. simpl fold_left.
  unfold posixpath.join_step at 1, posixpath.sep.
  rewrite startswith_char_app, Hid; [reflexivity|].
  intros E. by rewrite E in Hid.
Qed.



(** X2.  Under one parent directory, two items whose identifiers do not
    begin with [/] get the same href, as a string, only if they have
    the same identifier.  (Two different hrefs can still name one file,
    as for the identifiers [a] and [./a].) *)
Theorem X2_get_item_href_injective :
  forall (item1 item2 : Item) (parent_dir : string),
    Str.startswith_char "/" (item_id item1) = false ->
    Str.startswith_char "/" (item_id item2) = false ->
    ItemInSubdirLayout.get_item_href posixpath.join item1 parent_dir
    = ItemInSubdirLayout.get_item_href posixpath.join item2 parent_dir ->
    item_id item1 = item_id item2.
Proof.
  intros item1 item2 parent_dir H1 H2.
  rewrite !get_item_href_posix, !posix_join_items by done.
  intros E. apply (inj (String.app _)) in E.
  apply (inj (String.app "items/")) in E.
  by apply str_app_inv_tail in E.
Qed.

Lemma X2_get_item_href_injective_witness :
  item_id (mkItem "t1" [mkLink "self" "a"] "")
  = item_id (mkItem "t1" [] "x").
Proof.
  exact (X2_get_item_href_injective (mkItem "t1" [mkLink "self" "a"] "")
           (mkItem "t1" [] "x") "release/v1/gctr" eq_refl eq_refl eq_refl).
Defined.

(** X3.  A trailing [/] on the parent directory makes no difference:
    for a non-empty parent that does not end in [/], the href computed
    from the parent with a [/] appended is the href computed from the
    parent itself. *)
Theorem X3_get_item_href_trailing_separator :
  forall (item : Item) (parent_dir : string),
    parent_dir <> "" ->
    Str.endswith_char "/" parent_dir = false ->
    ItemInSubdirLayout.get_item_href posixpath.join item (parent_dir +:+ "/")
    = ItemInSubdirLayout.get_item_href posixpath.join item parent_dir.
Proof.
  intros item parent_dir Hne Hend.
  destruct (Str.startswith_char "/" (item_id item)) eqn:Hid.
  - by rewrite !get_item_href_absolute.
  - rewrite !get_item_href_posix, !posix_join_items by done.
    rewrite endswith_char_app by discriminate.
    rewrite Hend, (bool_decide_eq_false_2 _ Hne). simpl.
    by rewrite orb_true_r.
Qed.

Lemma X3_get_item_href_trailing_separator_witness :
  ItemInSubdirLayout.get_item_href posixpath.join (mkItem "t1" [] "")
    ("release/v1/gctr" +:+ "/")
  = ItemInSubdirLayout.get_item_href posixpath.join (mkItem "t1" [] "")
      "release/v1/gctr".
Proof.
  apply (X3_get_item_href_trailing_separator (mkItem "t1" [] "")
           "release/v1/gctr"); [discriminate|reflexivity].
Defined.

Lemma alpha_plain (c : ascii) :
  Str.is_ascii_alpha c = true ->
  plain_char c = true /\ bool_decide (c = " "%char) = false.
Proof.
  destruct c as [[] [] [] [] [] [] [] []]; vm_compute; intros; by split.
Qed.

Lemma drive_letter_plain (c : ascii) (r : string) :
  Str.is_ascii_alpha c = true ->
  Str.forallb plain_char r = true ->
  plain_href (String c (":\" +:+ r)) = true
  /\ plain_href (String c (":/" +:+ r)) = true.
Proof.
  intros Hc Hr. destruct (alpha_plain c Hc) as [Hplain Hspace].
  unfold plain_href. cbn [Str.startswith_char]. rewrite Hspace.
  change (String c (":\" +:+ r)) with (String c (String ":" (String "\" r))).
  change (String c (":/" +:+ r)) with (String c (String ":" (String "/" r))).
  cbn [Str.forallb]. rewrite Hplain, Hr. by split.
Qed.

Lemma drive_letter_hier_part (c : ascii) (s : string) :
  Str.is_ascii_alpha c = true ->
  RFC3986.hier_part (String c (String ":" s)) = Some s.
Proof.
  intros Hc. cbn [RFC3986.hier_part].
  change (RFC3986.ALPHA c) with (Str.is_ascii_alpha c). by rewrite Hc.
Qed.

(** X4.  A parent directory that starts with a drive letter, as in
    [C:\data] or [C:/data], and goes on in printable ASCII without
    brackets, is joined as a path with the platform's [os.path.join],
    although [urlparse] reads the letter as a scheme.  (After [C://]
    the letter stays a scheme.) *)
Theorem X4_get_item_href_drive_letter :
  forall (os_path_join : list string -> string) (item : Item) (c : ascii)
         (r : string),
    Str.is_ascii_alpha c = true ->
    Str.forallb plain_char r = true ->
    ItemInSubdirLayout.get_item_href os_path_join item (String c (":\" +:+ r))
    = os_path_join [String c (":\" +:+ r); "items"; item_id item +:+ ".json"]
    /\ (Str.startswith_char "/" r = false ->
        ItemInSubdirLayout.get_item_href os_path_join item
          (String c (":/" +:+ r))
        = os_path_join [String c (":/" +:+ r); "items";
                        item_id item +:+ ".json"]).
Proof.
  intros os_path_join item c r Hc Hr.
  destruct (drive_letter_plain c r Hc Hr) as [Hback Hslash].
  split.
  - rewrite get_item_href_unfold, (from_parsed_uri_plain _ Hback).
    change (String c (":\" +:+ r)) with (String c (String ":" (String "\" r))).
    by rewrite (drive_letter_hier_part c _ Hc).
  - intros Hfirst.
    rewrite get_item_href_unfold, (from_parsed_uri_plain _ Hslash).
    change (String c (":/" +:+ r)) with (String c (String ":" (String "/" r))).
    rewrite (drive_letter_hier_part c _ Hc).
    assert (Hdrive : drive_like (String "/" r) = true).
    { unfold drive_like. destruct r as [|a r]; [reflexivity|].
      simpl in Hfirst. apply bool_decide_eq_false in Hfirst.
      cbn [Str.startswith].
      rewrite (bool_decide_eq_false_2 ("/"%char = a)) by congruence.
      reflexivity. }
    by rewrite Hdrive.
Qed.

Lemma X4_get_item_href_drive_letter_witness :
  ItemInSubdirLayout.get_item_href (fun _ => "joined by the platform")
    (mkItem "t1" [] "") "C:/data/stac"
  = "joined by the platform".
Proof.
  exact (proj2 (X4_get_item_href_drive_letter (fun _ => "joined by the platform")
                  (mkItem "t1" [] "") "C"%char "data/stac" eq_refl eq_refl)
           eq_refl).
Defined.

Example drive_letter_double_slash_is_a_url :
  JoinType.from_parsed_uri (safe_urlparse "C://data") = JoinType.URL.
Proof. reflexivity. Qed.

(** ** Every run of the validator *)

Section ValidatorRuns.
Context `{Library}.

(** What [parse_args] does with any command line: the help text and
    status 0, a usage error and status 2, or the one plain argument. *)
Lemma parse_args_cases (argv : list string) (w : World) :
  argparse.parse_args argv w
  = (Raise (SystemExit 0),
     printed w
       [argparse.help_text] [] [])
  \/ (exists message,
        argparse.parse_args argv w
        = (Raise (SystemExit 2),
           printed w []
             [argparse.usage; argparse.prog +:+ ": error: " +:+ message] []))
  \/ (exists catalog_path,
        argparse.is_optional catalog_path = false
        /\ catalog_path ∈ argv
        /\ argparse.parse_args argv w = (Return catalog_path, w)).
Proof.
  assert (Herror : forall message,
            argparse.error (A := string) message w
            = (Raise (SystemExit 2),
               printed w []
                 [argparse.usage; argparse.prog +:+ ": error: " +:+ message]
                 [])).
  { intros message. unfold argparse.error. run_script. simpl.
    by rewrite !app_nil_r, <- !(assoc_L (++)). }
  unfold argparse.parse_args.
  destruct (existsb argparse.is_help_flag argv).
  { left. run_script. simpl. by rewrite !app_nil_r. }
  right.
  destruct (filter (fun a => argparse.is_optional a = false) argv)
    as [|catalog_path extras] eqn:Hpos.
  { left. eexists. apply Herror. }
  destruct (extras ++ filter (fun a => argparse.is_optional a = true) argv)
    as [|x xs].
  - right. exists catalog_path.
    assert (Hin : catalog_path
                  ∈ filter (fun a => argparse.is_optional a = false) argv)
      by (rewrite Hpos; by left).
    apply list_elem_of_filter in Hin as [? ?]. by repeat split.
  - left. eexists. apply Herror.
Qed.

Lemma main_after_parse (argv : list string) (w : World) catalog_path :
  argparse.is_optional catalog_path = false ->
  argparse.parse_args argv w = (Return catalog_path, w) ->
  main argv w = main [catalog_path] w.
Proof.
  intros Hplain Hparse. unfold main.
  rewrite (bind_Return _ _ _ _ _ Hparse).
  by rewrite (bind_Return _ _ _ _ _ (parse_args_one _ _ Hplain)).
Qed.

(** The five ways a run of [main] can go. *)
Lemma main_outcome (argv : list string) (w : World) :
  main argv w
  = (Raise (SystemExit 0),
     printed w
       [argparse.help_text] [] [])
  \/ (exists message,
        main argv w
        = (Raise (SystemExit 2),
           printed w []
             [argparse.usage; argparse.prog +:+ ": error: " +:+ message] []))
  \/ (exists catalog_path out,
        catalog_path ∈ argv
        /\ main argv w
           = (Raise (SystemExit 0),
              printed w out [] [EvRead catalog_path; EvValidateAll]))
  \/ (exists catalog_path out e,
        catalog_path ∈ argv
        /\ main argv w
           = (Raise (SystemExit 1),
              printed w out (failure_lines e) [EvRead catalog_path]))
  \/ (exists catalog_path out e,
        catalog_path ∈ argv
        /\ main argv w
           = (Raise (SystemExit 1),
              printed w out (failure_lines e)
                [EvRead catalog_path; EvValidateAll])).
Proof.
  destruct (parse_args_cases argv w)
    as [Hhelp|[(message & Herr)|(catalog_path & Hplain & Hin & Hparse)]].
  - left. unfold main. by rewrite (bind_Raise _ _ _ _ _ Hhelp).
  - right; left. exists message. unfold main.
    by rewrite (bind_Raise _ _ _ _ _ Herr).
  - rewrite (main_after_parse _ _ _ Hplain Hparse). do 2 right.
    destruct (fs w !! catalog_path) as [[msg|d]|] eqn:Hf.
    + right; left. eexists _, _, _. split; [exact Hin|].
      apply main_load_fails; [done|].
      unfold read_json. by rewrite Hf.
    + assert (Hdec : doc_type d = CATALOG \/ doc_type d <> CATALOG)
        by (destruct (doc_type d); auto).
      destruct Hdec as [Ht|Ht].
      * destruct (validate_all_rec recursion_limit (fs w) catalog_path
                    (from_dict d catalog_path)) as [e|[]] eqn:Hv.
        -- do 2 right. eexists _, _, e. split; [exact Hin|].
           by rewrite (main_validated _ _ _ _ Hplain Hf Ht Hv).
        -- left. eexists _, _. split; [exact Hin|].
           by rewrite (main_validated _ _ _ _ Hplain Hf Ht Hv).
      * right; left. eexists _, _, _. split; [exact Hin|].
        by apply main_not_a_catalog.
    + right; left. eexists _, _, _. split; [exact Hin|].
      apply main_load_fails; [done|].
      unfold read_json. by rewrite Hf.
Qed.

End ValidatorRuns.

(** X5.  Every run of the validator ends in [sys.exit]: for every
    command line and every state of the disk, [main] leaves with status
    0, 1 or 2.  It never returns and never lets an exception escape. *)
Theorem X5_main_always_exits :
  forall `{Library} (argv : list string) (w : World),
    exists (code : Z) (w' : World),
      main argv w = (Raise (SystemExit code), w')
      /\ (code = 0 \/ code = 1 \/ code = 2).
Proof.
  intros L argv w.
  destruct (main_outcome argv w)
    as [E|[(? & E)|[(? & ? & ? & E)|[(? & ? & ? & ? & E)
                                    |(? & ? & ? & ? & E)]]]];
    rewrite E; eexists _, _; (split; [reflexivity|auto]).
Qed.

(** X6.  The library calls of a run: the validator calls
    [Catalog.from_file] at most once, on an argument of the command
    line, and [validate_all] at most once, and only after that
    [from_file]; it makes no other call that saves or writes. *)
Theorem X6_main_library_calls :
  forall `{Library} (argv : list string) (w : World),
    events (main argv w).2 = events w
    \/ exists catalog_path,
         catalog_path ∈ argv
         /\ (events (main argv w).2 = events w ++ [EvRead catalog_path]
             \/ events (main argv w).2
                = events w ++ [EvRead catalog_path; EvValidateAll]).
Proof.
  intros L argv w.
  destruct (main_outcome argv w)
    as [E|[(? & E)|[(p & ? & Hin & E)|[(p & ? & ? & Hin & E)
                                      |(p & ? & ? & Hin & E)]]]];
    rewrite E; simpl.
  - left. by rewrite app_nil_r.
  - left. by rewrite app_nil_r.
  - right. exists p. split; [exact Hin|]. by right.
  - right. exists p. split; [exact Hin|]. by left.
  - right. exists p. split; [exact Hin|]. by right.
Qed.

(** ** Every run of the builder *)

Section BuilderRuns.
Context `{Library}.

(** A round keeps the root's own document and attributes. *)
Lemma attach_round_keeps_root output_dir catalog id w :
  exists children line,
    attach_collection output_dir catalog id w
    = (Return (mkCatalog (cat_doc catalog) children (cat_extent catalog)
                 (cat_summaries catalog) (cat_license catalog)),
       after_round w (path_str (collection_path_of output_dir id)) line).
Proof.
  assert (Hsame : catalog
                  = mkCatalog (cat_doc catalog) (cat_children catalog)
                      (cat_extent catalog) (cat_summaries catalog)
                      (cat_license catalog)) by by destruct catalog.
  destruct (fs w !! path_str (collection_path_of output_dir id))
    as [[msg|d]|] eqn:Hf.
  - eexists _, _. rewrite (attach_unreadable _ _ _ _ _ Hf).
    by rewrite Hsame at 1.
  - assert (Hdec : doc_type d = COLLECTION \/ doc_type d <> COLLECTION)
      by (destruct (doc_type d); auto).
    destruct Hdec as [Ht|Ht].
    + destruct (add_child_error catalog
                  (from_dict d (path_str (collection_path_of output_dir id))))
        as [msg|] eqn:He.
      * eexists _, _. rewrite (attach_add_child_raises _ _ _ _ _ _ Hf Ht He).
        by rewrite Hsame at 1.
      * eexists _, _. by rewrite (attach_attached _ _ _ _ _ Hf Ht He).
    + eexists _, _. rewrite (attach_not_a_collection _ _ _ _ _ Hf Ht).
      by rewrite Hsame at 1.
  - eexists _, _. rewrite (attach_not_found _ _ _ _ Hf).
    by rewrite Hsame at 1.
Qed.

Lemma attach_loop_keeps_root output_dir ids :
  forall catalog w,
  exists children w',
    for_loop ids (attach_collection output_dir) catalog w
    = (Return (mkCatalog (cat_doc catalog) children (cat_extent catalog)
                 (cat_summaries catalog) (cat_license catalog)), w').
Proof.
  induction ids as [|id ids IH]; intros catalog w.
  - exists (cat_children catalog), w. simpl. unfold ret. by destruct catalog.
  - destruct (attach_round_keeps_root output_dir catalog id w)
      as (children & line & Hround).
    simpl. rewrite (bind_Return _ _ _ _ _ Hround).
    destruct (IH (mkCatalog (cat_doc catalog) children (cat_extent catalog)
                    (cat_summaries catalog) (cat_license catalog))
                (after_round w (path_str (collection_path_of output_dir id))
                   line))
      as (children' & w' & Hloop).
    by exists children', w'.
Qed.

End BuilderRuns.

(** X8.  Whatever is found on disk, the catalog that the loop hands to
    the save step is the configured root: it is a catalog whose
    identifier, description and title are the constants, and it
    carries the world-wide extent, the keywords and the licence.
    Attaching children changes none of these. *)
Theorem X8_assembled_root_is_configured :
  forall `{Library} (output_dir : Path) (collection_dirs : list string)
         (w : World),
    exists (catalog : Catalog) (w1 : World),
      assemble_catalog output_dir collection_dirs w = (Return catalog, w1)
      /\ doc_type (cat_doc catalog) = CATALOG
      /\ doc_id (cat_doc catalog) = CATALOG_ID
      /\ doc_description (cat_doc catalog) = CATALOG_DESCRIPTION
      /\ doc_title (cat_doc catalog) = Some CATALOG_TITLE
      /\ cat_extent catalog = Some (mkExtent SPATIAL_EXTENT TEMPORAL_EXTENT)
      /\ cat_summaries catalog = Some [("keywords", KEYWORDS)]
      /\ cat_license catalog = Some LICENSE.
Proof.
  intros L output_dir dirs w. unfold assemble_catalog.
  erewrite bind_Return by reflexivity.
  erewrite bind_Return by reflexivity.
  match goal with
  | |- context [for_loop ?ids ?body ?c ?w0] =>
      destruct (attach_loop_keeps_root output_dir ids c w0)
        as (children & w' & Hloop)
  end.
  eexists _, _. split; [exact Hloop|]. by repeat split.
Qed.

Section ChildrenFacts.
Context `{Library}.
Hypothesis add_child_succeeds :
  forall (catalog : Catalog) (child : Doc),
    add_child_error catalog child = None.

(** With an [add_child] that does not raise, the loop appends, in the
    order of the names, one child for every name whose collection
    document loads. *)
Lemma attach_loop_children output_dir root_href ids :
  forall catalog w,
    Catalog_get_self_href catalog = Some root_href ->
    exists w',
      for_loop ids (attach_collection output_dir) catalog w
      = (Return (mkCatalog (cat_doc catalog)
                   (cat_children catalog
                    ++ omap (attached_child root_href output_dir (fs w)) ids)
                   (cat_extent catalog) (cat_summaries catalog)
                   (cat_license catalog)), w')
      /\ fs w' = fs w.
Proof.
  induction ids as [|id ids IH]; intros catalog w Hself.
  - exists w. simpl. rewrite app_nil_r. unfold ret. by destruct catalog.
  - assert (Hskip : forall line,
              attach_collection output_dir catalog id w
              = (Return catalog,
                 after_round w (path_str (collection_path_of output_dir id))
                   line) ->
              attached_child root_href output_dir (fs w) id = None ->
              exists w',
                for_loop (id :: ids) (attach_collection output_dir) catalog w
                = (Return (mkCatalog (cat_doc catalog)
                             (cat_children catalog
                              ++ omap (attached_child root_href output_dir
                                         (fs w)) (id :: ids))
                             (cat_extent catalog) (cat_summaries catalog)
                             (cat_license catalog)), w')
                /\ fs w' = fs w).
    { intros line Hround Hnone. simpl.
      rewrite (bind_Return _ _ _ _ _ Hround), Hnone.
      destruct (IH catalog
                  (after_round w (path_str (collection_path_of output_dir id))
                     line) Hself)
        as (w' & Hloop & Hfs).
      exists w'. by split. }
    destruct (fs w !! path_str (collection_path_of output_dir id))
      as [[msg|d]|] eqn:Hf.
    + eapply Hskip; [by apply attach_unreadable|].
      unfold attached_child. by rewrite Hf.
    + assert (Hdec : doc_type d = COLLECTION \/ doc_type d <> COLLECTION)
        by (destruct (doc_type d); auto).
      destruct Hdec as [Ht|Ht].
      * destruct (IH (mkCatalog (cat_doc catalog)
                        (cat_children catalog
                         ++ [placed_child catalog
                               (from_dict d
                                  (path_str
                                     (collection_path_of output_dir id)))
                               (ItemInSubdirLayout.new os_path_join)])
                        (cat_extent catalog) (cat_summaries catalog)
                        (cat_license catalog))
                    (after_round w
                       (path_str (collection_path_of output_dir id))
                       ("  + Read collection '" +:+ id +:+ "'")) Hself)
          as (w' & Hloop & Hfs).
        exists w'. split; [|exact Hfs]. simpl.
        rewrite (bind_Return _ _ _ _ _
                   (attach_attached _ _ _ _ _ Hf Ht (add_child_succeeds _ _))).
        rewrite Hloop. simpl.
        unfold attached_child at 2. rewrite Hf, Ht.
        unfold placed_child. rewrite Hself. simpl.
        by rewrite <- (assoc_L (++)).
      * eapply Hskip; [by apply attach_not_a_collection|].
        unfold attached_child. rewrite Hf. by destruct (doc_type d).
    + eapply Hskip; [by apply attach_not_found|].
      unfold attached_child. by rewrite Hf.
Qed.

End ChildrenFacts.

Lemma attached_child_id `{Library} root_href output_dir files
    (ids : list string) :
  map doc_id (omap (attached_child root_href output_dir files) ids)
  = omap (collection_id_at output_dir files) ids.
Proof.
  induction ids as [|id ids IH]; [reflexivity|]. simpl.
  unfold attached_child at 1, collection_id_at at 1.
  change (path_str (collection_path_of output_dir id))
    with (path_str (joinpath (joinpath output_dir id) "collection.json")).
  destruct (files !! path_str (joinpath (joinpath output_dir id)
                                 "collection.json")) as [[msg|d]|];
    [exact IH| |exact IH].
  destruct (doc_type d); [exact IH| |exact IH].
  cbn [map]. f_equal. exact IH.
Qed.

(** X9.  When [add_child] does not raise, the children of the
    assembled catalog are, in lexicographic order of the names, the
    collections whose documents load: their identifiers are those of
    the collection documents found at
    [<output-dir>/<name>/collection.json], one for each name that has
    one.  Names without a loadable collection contribute nothing. *)
Theorem X9_assembled_children :
  forall `{Library} (output_dir : Path) (collection_dirs : list string)
         (w : World),
    (forall (catalog : Catalog) (child : Doc),
       add_child_error catalog child = None) ->
    exists (catalog : Catalog) (w1 : World),
      assemble_catalog output_dir collection_dirs w = (Return catalog, w1)
      /\ map doc_id (cat_children catalog)
         = omap (collection_id_at output_dir (fs w))
             (sorted collection_dirs).
Proof.
  intros L output_dir dirs w Hok. unfold assemble_catalog.
  erewrite bind_Return by reflexivity.
  erewrite bind_Return by reflexivity.
  match goal with
  | |- context [for_loop ?ids ?body ?c ?w0] =>
      destruct (attach_loop_children Hok output_dir
                  (path_str (joinpath output_dir "catalog.json")) ids c w0)
        as (w' & Hloop & _)
  end.
  { apply Doc_get_set_self_href. }
  eexists _, _. split; [exact Hloop|].
  cbn [cat_children]. simpl app.
  by rewrite attached_child_id.
Qed.

Lemma X9_assembled_children_witness :
  exists (catalog : Catalog) (w1 : World),
    assemble_catalog (H := Posix.lenient_library) "release/v1"
      ["gcts"; "gctr"; "coastal-zone"; "coastal-grid"] Posix.release_world
    = (Return catalog, w1)
    /\ map doc_id (cat_children catalog) = ["coastal-grid"; "gctr"].
Proof.
  destruct (X9_assembled_children (H := Posix.lenient_library) "release/v1"
              ["gcts"; "gctr"; "coastal-zone"; "coastal-grid"]
              Posix.release_world (fun _ _ => eq_refl))
    as (catalog & w1 & Hasm & Hchildren).
  exists catalog, w1. split; [exact Hasm|].
  rewrite Hchildren. vm_compute. reflexivity.
Defined.

(** X10.  The order in which the collection directories are configured
    does not matter: two lists that are permutations of each other give
    the same run of the builder, line for line and call for call. *)
Theorem X10_builder_order_independent :
  forall `{Library} (output_dir : Path)
         (collection_dirs collection_dirs' : list string) (w : World),
    collection_dirs ≡ₚ collection_dirs' ->
    create_and_save_catalog output_dir collection_dirs w
    = create_and_save_catalog output_dir collection_dirs' w.
Proof.
  intros L output_dir dirs dirs' w Hperm.
  assert (Hsorted : sorted dirs = sorted dirs').
  { apply (StronglySorted_unique String.le).
    - apply StronglySorted_merge_sort; apply _.
    - apply StronglySorted_merge_sort; apply _.
    - unfold sorted. by rewrite !merge_sort_Permutation. }
  unfold create_and_save_catalog, create_and_save_catalog_with,
    assemble_catalog.
  by rewrite Hsorted, (Permutation_length Hperm).
Qed.

Lemma X10_builder_order_independent_witness :
  create_and_save_catalog (H := Posix.library) "release/v1"
    ["gcts"; "gctr"] Posix.release_world
  = create_and_save_catalog (H := Posix.library) "release/v1"
      ["gctr"; "gcts"] Posix.release_world.
Proof.
  apply (X10_builder_order_independent (H := Posix.library)).
  apply perm_swap.
Defined.

(** ** The save step, case by case *)

Section SaveCases.
Context `{Library}.

(** The three ways the save step can go: the save raises; the save
    returns and the root cannot be read back as a catalog; or the root
    is read back and written with the public URL. *)
Lemma save_and_anchor_cases (catalog : Catalog) (catalog_path : Path)
    (w : World) :
  (exists e,
     Catalog_save catalog (fs w) = inl e
     /\ save_and_anchor catalog catalog_path w
        = (Raise (Exception e),
           mkWorld (fs w) (stdout w ++ [saving_line]) (stderr w)
             (events w ++ [EvSave])))
  \/ (exists files' e,
        Catalog_save catalog (fs w) = inr files'
        /\ (forall d, files' !! path_str catalog_path = Some (Json d) ->
                      doc_type d <> CATALOG)
        /\ (files' !! path_str catalog_path = None ->
            exists msg, e = FileNotFoundError msg)
        /\ save_and_anchor catalog catalog_path w
           = (Raise (Exception e),
              mkWorld files' (stdout w ++ [saving_line; anchoring_line])
                (stderr w)
                (events w ++ [EvSave; EvRead (path_str catalog_path)])))
  \/ (exists files' d,
        Catalog_save catalog (fs w) = inr files'
        /\ files' !! path_str catalog_path = Some (Json d)
        /\ doc_type d = CATALOG
        /\ save_and_anchor catalog catalog_path w
           = (Return tt,
              mkWorld
                (<[path_str catalog_path :=
                     Json (to_dict
                             (Catalog_set_self_href
                                (mkCatalog
                                   (from_dict d (path_str catalog_path))
                                   [] None None None)
                                CATALOG_PUBLISHED_URL))]> files')
                (stdout w ++ [saving_line; anchoring_line;
                              saved_line (path_str catalog_path)])
                (stderr w)
                (events w ++ [EvSave; EvRead (path_str catalog_path);
                              EvWrite (path_str catalog_path)]))).
Proof.
  unfold save_and_anchor, anchor_root. run_script. simpl.
  fold saving_line anchoring_line (saved_line (path_str catalog_path)).
  destruct (Catalog_save catalog (fs w)) as [e|files'] eqn:Hsave; simpl.
  { left. by exists e. }
  right.
  destruct (files' !! path_str catalog_path) as [[msg|d]|] eqn:Hf; simpl.
  - left. eexists files', _. split; [done|]. split; [congruence|].
    split; [congruence|]. by rewrite <- !(assoc_L (++)).
  - assert (Hdec : doc_type d = CATALOG \/ doc_type d <> CATALOG)
      by (destruct (doc_type d); auto).
    destruct Hdec as [Ht|Ht].
    + right. exists files', d. rewrite Ht. simpl.
      repeat split; try done. by rewrite <- !(assoc_L (++)).
    + left. eexists files', _. split; [done|].
      split; [congruence|]. split; [congruence|].
      destruct (doc_type d); [done|..]; simpl;
        by rewrite <- !(assoc_L (++)).
  - left. eexists files', _. split; [done|]. split; [congruence|].
    split; [by eexists|]. by rewrite <- !(assoc_L (++)).
Qed.

(** The builder is the save step run on the assembled catalog, after
    the two lines of the validation block. *)
Lemma create_and_save_catalog_run (output_dir : Path) (dirs : list string)
    (w : World) :
  exists (catalog : Catalog) (w2 : World),
    create_and_save_catalog output_dir dirs w
    = save_and_anchor catalog (joinpath output_dir "catalog.json") w2
    /\ fs w2 = fs w
    /\ stderr w2 = stderr w
    /\ (exists out, stdout w2 = stdout w ++ out)
    /\ events w2
       = events w
         ++ map (fun id => EvRead (path_str (collection_path_of output_dir id)))
              (sorted dirs)
    /\ exists w1,
         assemble_catalog output_dir dirs w = (Return catalog, w1)
         /\ events w1 = events w2.
Proof.
  destruct (assemble_catalog_total output_dir dirs w)
    as (catalog & lines & added & Hasm & _).
  eexists catalog, _. split.
  { unfold create_and_save_catalog, create_and_save_catalog_with.
    rewrite (bind_Return _ _ _ _ _ Hasm).
    by rewrite (bind_Return _ _ _ _ _ (validate_before_save_disabled _)). }
  unfold printed. simpl. rewrite !app_nil_r.
  split; [done|]. split; [done|].
  split; [rewrite <- (assoc_L (++)); by eexists|].
  split; [done|].
  eexists. split; [exact Hasm|]. done.
Qed.

End SaveCases.

(** X11.  When the builder returns, the catalog path holds a root
    document whose self href is the public URL; the last line printed
    says that the catalog was saved; nothing went to the error stream;
    and the run ended with the save, the reading back of the root and
    one write, to the catalog path. *)
Theorem X11_builder_postcondition :
  forall `{Library} (output_dir : Path) (collection_dirs : list string)
         (w w' : World),
    create_and_save_catalog output_dir collection_dirs w = (Return tt, w') ->
    (exists root : Doc,
       fs w' !! path_str (joinpath output_dir "catalog.json")
       = Some (Json root)
       /\ Doc_get_self_href root = Some CATALOG_PUBLISHED_URL)
    /\ last (stdout w')
       = Some (saved_line (path_str (joinpath output_dir "catalog.json")))
    /\ stderr w' = stderr w
    /\ exists evs,
         events w'
         = events w ++ evs
           ++ [EvSave;
               EvRead (path_str (joinpath output_dir "catalog.json"));
               EvWrite (path_str (joinpath output_dir "catalog.json"))].
Proof.
  intros L output_dir dirs w w' Hrun.
  destruct (create_and_save_catalog_run output_dir dirs w)
    as (catalog & w2 & Heq & _ & Herr & _ & Hev & _).
  rewrite Heq in Hrun.
  destruct (save_and_anchor_cases catalog (joinpath output_dir "catalog.json")
              w2)
    as [(e & _ & E)|[(files' & e & _ & _ & _ & E)
                    |(files' & d & _ & _ & _ & E)]];
    rewrite E in Hrun; try discriminate Hrun.
  injection Hrun as <-. simpl.
  split.
  { eexists. split; [by rewrite lookup_insert_eq|]. apply to_dict_self_href. }
  split.
  { change [saving_line; anchoring_line;
            saved_line (path_str (joinpath output_dir "catalog.json"))]
      with ([saving_line; anchoring_line]
            ++ [saved_line (path_str (joinpath output_dir "catalog.json"))]).
    by rewrite (assoc_L (++)), last_snoc. }
  split; [exact Herr|].
  eexists. rewrite Hev. by rewrite <- (assoc_L (++)).
Qed.

Lemma X11_builder_postcondition_witness :
  exists root : Doc,
    fs (create_and_save_catalog (H := Posix.library) "release/v1"
          ["gcts"; "gctr"] Posix.release_world).2
    !! "release/v1/catalog.json" = Some (Json root)
    /\ Doc_get_self_href root = Some CATALOG_PUBLISHED_URL.
Proof.
  assert (Hrun : create_and_save_catalog (H := Posix.library) "release/v1"
                   ["gcts"; "gctr"] Posix.release_world
                 = (Return tt,
                    (create_and_save_catalog (H := Posix.library) "release/v1"
                       ["gcts"; "gctr"] Posix.release_world).2))
    by (vm_compute; reflexivity).
  exact (proj1 (X11_builder_postcondition (H := Posix.library) "release/v1"
                  ["gcts"; "gctr"] Posix.release_world _ Hrun)).
Defined.

(** X12.  Nothing catches a failure of the save step.  If the save
    raises, the builder raises the same exception: the script ends with
    status 1, the last line printed is the one that announces the save,
    and the root is neither read back nor written.  If the save returns
    but leaves no file at the catalog path, the builder raises
    [FileNotFoundError] from reading the root back, and writes
    nothing. *)
Theorem X12_save_failure_propagates :
  forall `{Library} (output_dir : Path) (collection_dirs : list string)
         (w : World),
    exists (catalog : Catalog) (w1 : World),
      assemble_catalog output_dir collection_dirs w = (Return catalog, w1)
      /\ (forall e : PyException,
            Catalog_save catalog (fs w) = inl e ->
            exists w',
              create_and_save_catalog output_dir collection_dirs w
              = (Raise (Exception e), w')
              /\ exit_status
                   (create_and_save_catalog output_dir collection_dirs w).1 = 1
              /\ last (stdout w') = Some saving_line
              /\ events w' = events w1 ++ [EvSave])
      /\ (forall files' : gmap string File,
            Catalog_save catalog (fs w) = inr files' ->
            files' !! path_str (joinpath output_dir "catalog.json") = None ->
            exists msg w',
              create_and_save_catalog output_dir collection_dirs w
              = (Raise (Exception (FileNotFoundError msg)), w')
              /\ events w'
                 = events w1
                   ++ [EvSave;
                       EvRead (path_str (joinpath output_dir "catalog.json"))]).
Proof.
  intros L output_dir dirs w.
  destruct (create_and_save_catalog_run output_dir dirs w)
    as (catalog & w2 & Heq & Hfs & _ & _ & _ & w1 & Hasm & Hev).
  exists catalog, w1. split; [exact Hasm|]. rewrite Heq, Hev, <- Hfs.
  destruct (save_and_anchor_cases catalog (joinpath output_dir "catalog.json")
              w2)
    as [(e & Hsave & E)|[(files' & e & Hsave & Hkind & Hmissing & E)
                        |(files' & d & Hsave & Hf & _ & E)]];
    rewrite E; (split; [intros e' Hsave'|intros files'' Hsave' Hnone]);
    rewrite Hsave in Hsave'; try discriminate Hsave'.
  - injection Hsave' as <-. eexists. simpl.
    split; [reflexivity|]. split; [reflexivity|].
    split; [apply last_snoc|reflexivity].
  - injection Hsave' as <-. destruct (Hmissing Hnone) as (msg & ->).
    by eexists msg, _.
  - injection Hsave' as <-. congruence.
Qed.

Lemma X12_save_failure_propagates_witness :
  exists w',
    create_and_save_catalog (H := Posix.read_only_library) "release/v1"
      ["gctr"] Posix.release_world
    = (Raise (Exception (OtherError "[Errno 30] Read-only file system")), w').
Proof.
  destruct (X12_save_failure_propagates (H := Posix.read_only_library)
              "release/v1" ["gctr"] Posix.release_world)
    as (catalog & w1 & _ & Hraises & _).
  destruct (Hraises (OtherError "[Errno 30] Read-only file system") eq_refl)
    as (w' & Hrun & _).
  by exists w'.
Defined.

(** X13.  The builder never prints on the error stream: whatever the
    disk holds and however the run ends, the error stream is as it was
    before. *)
Theorem X13_builder_silent_on_stderr :
  forall `{Library} (output_dir : Path) (collection_dirs : list string)
         (w : World),
    stderr (create_and_save_catalog output_dir collection_dirs w).2 = stderr w.
Proof.
  intros L output_dir dirs w.
  destruct (create_and_save_catalog_run output_dir dirs w)
    as (catalog & w2 & Heq & _ & Herr & _).
  rewrite Heq, <- Herr.
  destruct (save_and_anchor_cases catalog (joinpath output_dir "catalog.json")
              w2)
    as [(e & _ & E)|[(files' & e & _ & _ & _ & E)
                    |(files' & d & _ & _ & _ & E)]];
    by rewrite E.
Qed.

(** ** What re-anchoring does to the root document *)

(** ** What re-anchoring does to the root document *)

Lemma add_plain_links (xs acc : list Link) :
  Forall (fun l => is_plain_link l = true) xs ->
  fold_left add_loaded_link xs acc = acc ++ xs.
Proof.
  intros Hxs. revert acc.
  induction Hxs as [|l xs Hl _ IH]; intros acc; [by rewrite app_nil_r|].
  simpl. rewrite IH. unfold add_loaded_link.
  apply is_plain_link_spec in Hl as [-> ->].
  by rewrite <- (assoc_L (++)).
Qed.

Lemma filter_nonroot_plain (xs : list Link) :
  Forall (fun l => is_plain_link l = true) xs ->
  filter (fun x => is_root x = false) xs = xs.
Proof.
  induction 1 as [|l xs Hl _ IH]; [reflexivity|].
  rewrite filter_cons, IH. apply is_plain_link_spec in Hl as [Hl _].
  by destruct (decide (is_root l = false)).
Qed.

(** Loading keeps the shape of a list with one root link. *)
Lemma loaded_shape (links : list Link) :
  forall acc : list Link,
    (exists pre r post,
       acc = pre ++ r :: post /\ is_root r = true
       /\ Forall (fun l => is_plain_link l = true) pre
       /\ Forall (fun l => is_plain_link l = true) post) ->
    exists pre r post,
      fold_left add_loaded_link links acc = pre ++ r :: post
      /\ is_root r = true
      /\ Forall (fun l => is_plain_link l = true) pre
      /\ Forall (fun l => is_plain_link l = true) post.
Proof.
  induction links as [|l links IH]; intros acc Hacc; [exact Hacc|].
  simpl. apply IH.
  destruct Hacc as (pre & r & post & -> & Hr & Hpre & Hpost).
  unfold add_loaded_link.
  destruct (is_root l) eqn:Hroot.
  - rewrite (is_root_not_self l Hroot).
    exists (pre ++ post), l, []. split.
    + rewrite filter_app, filter_cons.
      destruct (decide (is_root r = false)); [congruence|].
      by rewrite !filter_nonroot_plain.
    + split; [done|]. split; [by apply Forall_app|constructor].
  - destruct (is_self l) eqn:Hself.
    + by exists pre, r, post.
    + exists pre, r, (post ++ [l]). split; [by rewrite <- (assoc_L (++))|].
      split; [done|]. split; [done|].
      apply Forall_app. split; [done|]. constructor; [|constructor].
      unfold is_plain_link. by rewrite Hroot, Hself.
Qed.

(** Loading the kept links again changes nothing. *)
Lemma kept_links_reload (d : Doc) :
  fold_left add_loaded_link (kept_links d) [Link_root_self] = kept_links d.
Proof.
  destruct (loaded_shape (doc_links d) [Link_root_self])
    as (pre & r & post & Hkept & Hr & Hpre & Hpost).
  { exists [], Link_root_self, []. by repeat split. }
  fold (kept_links d) in Hkept. rewrite Hkept.
  rewrite fold_left_app, (add_plain_links pre) by done.
  simpl. unfold add_loaded_link at 2.
  rewrite Hr, (is_root_not_self r Hr).
  rewrite filter_cons. simpl.
  rewrite (filter_nonroot_plain pre Hpre).
  rewrite (add_plain_links post) by done.
  by rewrite <- (assoc_L (++)).
Qed.

(** X15.  When hierarchical hrefs are written as they are stored (as
    for a catalog whose links are already relative), re-anchoring is
    idempotent on the documents: running the phase a second time
    returns and leaves every document as the first run left it. *)
Theorem X15_anchor_root_idempotent :
  forall `{Library} (catalog_path : Path) (w : World) (d : Doc),
    (forall (owner : Doc) (l : Link),
       transform_hierarchical_href owner l = link_href l) ->
    fs w !! path_str catalog_path = Some (Json d) ->
    doc_type d = CATALOG ->
    (anchor_root catalog_path (anchor_root catalog_path w).2).1 = Return tt
    /\ fs (anchor_root catalog_path (anchor_root catalog_path w).2).2
       = fs (anchor_root catalog_path w).2.
Proof.
  intros L catalog_path w d Hid Hf Ht.
  assert (Hstored : forall (d0 : Doc) (h : string),
            anchored d0 h
            = Doc_set_links d0
                (kept_links d0 ++ [mkLink "self" CATALOG_PUBLISHED_URL])).
  { intros d0 h.
    assert (Hlinks := anchored_links d0 h).
    assert (Hmap : forall links owner,
              map (fun l => mkLink (link_rel l) (Link_get_href owner l)) links
              = links).
    { intros links owner. induction links as [|l links IH]; [reflexivity|].
      simpl. rewrite IH. f_equal. unfold Link_get_href.
      destruct (bool_decide _); [rewrite Hid|]; by destruct l. }
    rewrite Hmap in Hlinks.
    unfold anchored, to_dict, Catalog_set_self_href in *. simpl in *.
    unfold Doc_set_links in *. simpl in *. by rewrite Hlinks. }
  rewrite (anchor_root_run catalog_path w d Hf Ht). simpl.
  fold (anchored d (path_str catalog_path)).
  erewrite anchor_root_run; [|simpl; apply lookup_insert_eq|by rewrite Hstored].
  simpl. split; [reflexivity|].
  fold (anchored (anchored d (path_str catalog_path)) (path_str catalog_path)).
  rewrite insert_insert_eq. f_equal. f_equal.
  rewrite (Hstored (anchored d _)), (Hstored d). unfold Doc_set_links. simpl.
  f_equal. f_equal.
  unfold kept_links at 1. simpl doc_links.
  rewrite fold_left_app, kept_links_reload. reflexivity.
Qed.

Lemma X15_anchor_root_idempotent_witness :
  fs (anchor_root (H := Posix.library) "release/v1/catalog.json"
        (anchor_root (H := Posix.library) "release/v1/catalog.json"
           Posix.saved_world).2).2
  = fs (anchor_root (H := Posix.library) "release/v1/catalog.json"
          Posix.saved_world).2.
Proof.
  assert (Hf : fs Posix.saved_world
               !! path_str (Library := Posix.library) "release/v1/catalog.json"
               = Some (Json Posix.root_doc)) by reflexivity.
  exact (proj2 (X15_anchor_root_idempotent (H := Posix.library)
                  "release/v1/catalog.json" Posix.saved_world Posix.root_doc
                  (fun _ _ => eq_refl) Hf eq_refl)).
Defined.
